(** * go-jsonschema: constructor generation (pkg/generator/constructor.go)

    A shallow embedding of [constructorGenerator.hasDefaults],
    [constructorGenerator.generate], [formatDefaultValue], [tryFormatSlice]
    and [formatSliceValue], with the properties of the emitted [New*]
    constructors.

    Go strings are byte strings ([string]); [int32] quantities that are only
    passed around are integers ([Z]); a function returning [(string, error)]
    returns a [result]; a method mutating the [*Emitter] it receives becomes
    a function from emitter states to emitter states. *)

From Stdlib Require Import ZArith Ascii String List Lia SpecFloat.
From stdpp Require Import base gmap strings list sorting pretty.

Set Warnings "-register-all".
Local Open Scope Z_scope.

(** ** Byte strings *)

Module gostring.

(** [concat l] is the concatenation of the strings of [l], in order. *)
Definition concat (l : list string) : string := foldr String.append "" l.

(** [n] tab characters; none when [n] is not positive, as in the loop
    [for i := 0; i < n; i++ { WriteRune('\t') }]. *)
Definition tabs (n : Z) : string :=
  concat (replicate (Z.to_nat n) (String "009" "")).

(** [strings.Contains s sub]. *)
Fixpoint contains (sub s : string) : bool :=
  String.prefix sub s ||
  match s with
  | EmptyString => false
  | String _ s' => contains sub s'
  end.

End gostring.

(** ** Dynamically typed default values ([interface{}])

    The dynamic types a schema default can carry after decoding, plus one
    slice type other than [[]interface{}], which [tryFormatSlice] tells
    apart from it. A Go map is a finite map: it has no order of its own. *)

Inductive value : Type :=
| VNil                                (* the nil interface value *)
| VBool (b : bool)                    (* bool *)
| VInt (n : Z)                        (* int *)
| VFloat64 (x : spec_float)           (* float64 *)
| VString (s : string)                (* string *)
| VSlice (l : list value)             (* []interface{} *)
| VStringSlice (l : list string)      (* []string *)
| VMap (m : gmap string value).       (* map[string]interface{} *)

(** [v != nil] on an interface value. *)
Definition isNil (v : value) : bool :=
  match v with VNil => true | _ => false end.

(** The dynamic type as [%T] prints it. *)
Definition typeName (v : value) : string :=
  match v with
  | VNil => "<nil>"
  | VBool _ => "bool"
  | VInt _ => "int"
  | VFloat64 _ => "float64"
  | VString _ => "string"
  | VSlice _ => "[]interface {}"
  | VStringSlice _ => "[]string"
  | VMap _ => "map[string]interface {}"
  end.

(** [reflect.ValueOf(v).Kind() == reflect.Slice]. *)
Definition isSliceKind (v : value) : bool :=
  match v with VSlice _ | VStringSlice _ => true | _ => false end.

(** ** The target AST ([codegen.Type], [codegen.StructField],
    [codegen.TypeDecl]), reduced to the variants and fields that
    constructor.go inspects. *)

Inductive type : Type :=
| NamedType (Decl : typeDecl)         (* *codegen.NamedType *)
| DurationType                        (* codegen.DurationType *)
| PrimitiveType (Type_ : string)
| ArrayType (Type_ : type)
| MapType (KeyType ValueType : type)
| PointerType (Type_ : type)
| EmptyInterfaceType
| StructType (Fields : list structField)   (* *codegen.StructType *)
with structField : Type :=
| StructField (Name : string) (Type_ : type) (DefaultValue : value)
with typeDecl : Type :=
| TypeDecl (Name : string) (Type_ : type).

Definition field_Name (f : structField) : string :=
  match f with StructField n _ _ => n end.
Definition field_Type (f : structField) : type :=
  match f with StructField _ t _ => t end.
Definition field_DefaultValue (f : structField) : value :=
  match f with StructField _ _ d => d end.

Definition decl_Name (d : typeDecl) : string :=
  match d with TypeDecl n _ => n end.
Definition decl_Type (d : typeDecl) : type :=
  match d with TypeDecl _ t => t end.

(** The method [GetName] of [TypeDecl]. *)
Definition GetName (d : typeDecl) : string := decl_Name d.

(** ** Errors

    The sentinel errors of package generator and the two wrappers that
    constructor.go builds with [fmt.Errorf]. [ErrForeign] stands for an
    error produced outside this file (by a [Type.Generate] method). *)

Inductive error : Type :=
| ErrDefaultDurationIsNotAString (T : string)   (* "%w: %T given" *)
| ErrDurationIsEmpty
| ErrCannotConvertISO8601ToGoFormat
| ErrCannotFindSlideToDump
| ErrInvalidDefaultValue
| ErrCannotDumpDefaultSlice (cause : error)     (* "%w: %w" *)
| ErrCannotFormatField (field : string) (cause : error)
    (* "cannot format default value for field %s: %w" *)
| ErrForeign (msg : string).

Inductive result (A : Type) : Type :=
| Ok (a : A)
| Err (e : error).
Arguments Ok {A} a.
Arguments Err {A} e.

Definition isOk {A} (r : result A) : bool :=
  match r with Ok _ => true | Err _ => false end.

(** ** The emitter *)

Module codegen.

Definition nl : string := String "010" "".

(** Modelled from the spec: the [Emitter] of package codegen, whose file
    is not among the sources. It accumulates the emitted text and "tracks
    the current indentation level and a max line width": text printed at
    the start of a line is preceded by one tab per indentation level. The
    two numbers are integers; their machine width plays no role here. *)
Record Emitter : Type := mkEmitter {
  sb : string;            (* the text written so far *)
  maxLineLength : Z;
  start : bool;           (* the next text starts a line *)
  indent : Z }.

(** Modelled from the spec: [NewEmitter], an empty emitter at the start of
    a line, with no indentation. *)
Definition NewEmitter (maxLineLength : Z) : Emitter :=
  mkEmitter "" maxLineLength true 0.

(** Modelled from the spec: the method [String], the text emitted so far. *)
Definition Emitter_String (e : Emitter) : string := sb e.

(** Modelled from the spec: the method [MaxLineLength]. *)
Definition MaxLineLength (e : Emitter) : Z := maxLineLength e.

(** Modelled from the spec: the method [Indent], which moves the
    indentation level by [n]. *)
Definition Indent (n : Z) (e : Emitter) : Emitter :=
  mkEmitter (sb e) (maxLineLength e) (start e) (indent e + n).

(** Modelled from the spec: at the start of a line, one tab per
    indentation level is written before the text. *)
Definition checkIndent (e : Emitter) : Emitter :=
  if start e
  then mkEmitter (sb e +:+ gostring.tabs (indent e)) (maxLineLength e) false (indent e)
  else e.

(** Modelled from the spec: the method [Printf]. It receives the text that
    [fmt.Sprintf(format, args...)] yields; every format of constructor.go
    is a concatenation of its [%s] arguments with fixed text. *)
Definition Printf (text : string) (e : Emitter) : Emitter :=
  let e := checkIndent e in
  mkEmitter (sb e +:+ text) (maxLineLength e) false (indent e).

(** Modelled from the spec: the method [Newline]. *)
Definition Newline (e : Emitter) : Emitter :=
  mkEmitter (sb e +:+ nl) (maxLineLength e) true (indent e).

(** Modelled from the spec: the method [Printlnf], [Printf] and a newline. *)
Definition Printlnf (text : string) (e : Emitter) : Emitter :=
  Newline (Printf text e).

(** Modelled from the spec: the method [Commentf]. The text is broken into
    lines that fit what is left of the line width and each line is printed
    behind [// ]; an empty text prints nothing. [wrap] is the line
    breaking (an external word-wrapping package followed by a split at
    newlines). *)
Definition Commentf (wrap : string → Z → list string) (text : string)
    (e : Emitter) : Emitter :=
  if decide (text = "") then e
  else foldl (λ e line, Printlnf ("// " +:+ line) e) e
             (wrap text (Z.max (maxLineLength e - indent e) 0)).

(** What [Printf] puts in front of its text. *)
Definition margin (e : Emitter) : string :=
  if start e then gostring.tabs (indent e) else "".

End codegen.
Export codegen.

(** ** Go standard library: [strconv.Quote] and package time

    Models of the library functions that the duration branch of
    [formatDefaultValue] calls ([%q], [time.Duration.String]) and of the
    one the emitted expression calls ([time.ParseDuration]). A
    [time.Duration] is a count of nanoseconds. *)

Module strconv.

Definition dq : ascii := "034"%char.
Definition backslash : ascii := "092"%char.

Definition hexDigit (n : N) : ascii :=
  if (n <? 10)%N then ascii_of_N (48 + n) else ascii_of_N (87 + n).

(** One byte of a quoted string. Bytes from 128 on are copied: they are
    taken to belong to printable runes of valid UTF-8. *)
Definition quoteByte (c : ascii) : string :=
  let n := N_of_ascii c in
  if Ascii.eqb c dq then String backslash (String dq "")
  else if Ascii.eqb c backslash then String backslash (String backslash "")
  else if (n =? 7)%N then String backslash "a"
  else if (n =? 8)%N then String backslash "b"
  else if (n =? 12)%N then String backslash "f"
  else if (n =? 10)%N then String backslash "n"
  else if (n =? 13)%N then String backslash "r"
  else if (n =? 9)%N then String backslash "t"
  else if (n =? 11)%N then String backslash "v"
  else if ((n <? 32) || (n =? 127))%N
       then String backslash
              (String "x" (String (hexDigit (n / 16)) (String (hexDigit (n mod 16)) "")))
  else String c "".

Fixpoint quoteBody (s : string) : string :=
  match s with
  | EmptyString => ""
  | String c s' => quoteByte c +:+ quoteBody s'
  end.

(** [strconv.Quote], which is what the verb [%q] prints for a string. *)
Definition Quote (s : string) : string :=
  String dq (quoteBody s +:+ String dq "").

End strconv.

Module gotime.

Definition Nanosecond : Z := 1.
Definition Microsecond : Z := 1000 * Nanosecond.
Definition Millisecond : Z := 1000 * Microsecond.
Definition Second : Z := 1000 * Millisecond.
Definition Minute : Z := 60 * Second.
Definition Hour : Z := 60 * Minute.

Definition digit (d : Z) : ascii := ascii_of_N (48 + Z.to_N d).

(** [fmtInt]: the decimal digits of [v] in front of [buf]. A uint64 has at
    most 20 digits. *)
Fixpoint fmtInt_loop (fuel : nat) (v : Z) (buf : string) : string :=
  match fuel with
  | O => buf
  | S fuel' =>
      if 0 <? v then fmtInt_loop fuel' (v / 10) (String (digit (v mod 10)) buf)
      else buf
  end.

Definition fmtInt (buf : string) (v : Z) : string :=
  if v =? 0 then String "0" buf else fmtInt_loop 20 v buf.

(** [fmtFrac]: the fraction of [v / 10^prec] in front of [buf], without
    trailing zeros and without the point when the fraction is zero; also
    returns [v / 10^prec]. *)
Fixpoint fmtFrac_loop (prec : nat) (v : Z) (print : bool) (buf : string)
  : string * Z * bool :=
  match prec with
  | O => (buf, v, print)
  | S prec' =>
      let d := v mod 10 in
      let print := print || negb (d =? 0) in
      let buf := if print then String (digit d) buf else buf in
      fmtFrac_loop prec' (v / 10) print buf
  end.

Definition fmtFrac (buf : string) (v : Z) (prec : nat) : string * Z :=
  let '(buf, v, print) := fmtFrac_loop prec v false buf in
  (if print then String "." buf else buf, v).

(** The micro sign U+00B5 in UTF-8. *)
Definition micro : string := String "194" (String "181" "").

(** [time.Duration.String], for [d] in the range of int64. *)
Definition Duration_String (d : Z) : string :=
  let u := Z.abs d in
  let neg := d <? 0 in
  let buf :=
    if u <? Second then
      if u =? 0 then "0s"
      else
        let '(unit, prec) :=
          if u <? Microsecond then ("ns", 0%nat)
          else if u <? Millisecond then (micro +:+ "s", 3%nat)
          else ("ms", 6%nat) in
        let '(buf, u) := fmtFrac unit u prec in
        fmtInt buf u
    else
      let '(buf, u) := fmtFrac "s" u 9 in
      let buf := fmtInt buf (u mod 60) in
      let u := u / 60 in
      if 0 <? u then
        let buf := fmtInt (String "m" buf) (u mod 60) in
        let u := u / 60 in
        if 0 <? u then fmtInt (String "h" buf) u else buf
      else buf in
  if neg then String "-" buf else buf.

(** *** [time.ParseDuration]

    An optional sign, then one or more groups of a decimal number and a
    unit. The model covers the inputs without a decimal point exactly; a
    fraction is computed by Go in float64 and is reported here as
    [Fraction] instead of a value. *)

Inductive parsed : Type :=
| Value (d : Z)       (* (d, nil) *)
| Invalid             (* (0, err) *)
| Fraction.           (* a decimal point was met: outside the model *)

Definition isDigit (c : ascii) : bool :=
  let n := N_of_ascii c in ((48 <=? n) && (n <=? 57))%N.

Definition isDot (c : ascii) : bool := Ascii.eqb c ".".

(** [leadingInt]: the leading digits as a number and the rest; [None] on
    overflow beyond 2^63. *)
Fixpoint leadingInt_loop (s : string) (x : Z) : option (Z * string) :=
  match s with
  | EmptyString => Some (x, s)
  | String c s' =>
      if isDigit c then
        if 2 ^ 63 / 10 <? x then None
        else
          let x := x * 10 + (Z.of_N (N_of_ascii c) - 48) in
          if 2 ^ 63 <? x then None else leadingInt_loop s' x
      else Some (x, s)
  end.

Definition leadingInt (s : string) : option (Z * string) := leadingInt_loop s 0.

(** The unit: the longest prefix without a digit or a point. *)
Fixpoint spanUnit (s : string) : string * string :=
  match s with
  | EmptyString => ("", "")
  | String c s' =>
      if isDot c || isDigit c then ("", s)
      else let '(u, rest) := spanUnit s' in (String c u, rest)
  end.

(** The Greek letter mu U+03BC in UTF-8. *)
Definition mu : string := String "206" (String "188" "").

Definition unitMap (u : string) : option Z :=
  if String.eqb u "ns" then Some Nanosecond
  else if String.eqb u "us" then Some Microsecond
  else if String.eqb u (micro +:+ "s") then Some Microsecond
  else if String.eqb u (mu +:+ "s") then Some Microsecond
  else if String.eqb u "ms" then Some Millisecond
  else if String.eqb u "s" then Some Second
  else if String.eqb u "m" then Some Minute
  else if String.eqb u "h" then Some Hour
  else None.

(** The loop [for s != ""], one number and unit per round; every round
    consumes at least one byte, so [String.length s] rounds suffice. *)
Fixpoint parseSegments (fuel : nat) (s : string) (d : Z) : parsed :=
  match s with
  | EmptyString => Value d
  | String c _ =>
      match fuel with
      | O => Invalid
      | S fuel' =>
          if isDot c then Fraction
          else if negb (isDigit c) then Invalid
          else
            match leadingInt s with
            | None => Invalid
            | Some (v, s1) =>
                match s1 with
                | String c1 _ =>
                    if isDot c1 then Fraction
                    else
                      let '(u, s2) := spanUnit s1 in
                      match unitMap u with
                      | None => Invalid
                      | Some unit =>
                          if 2 ^ 63 / unit <? v then Invalid
                          else
                            let d := d + v * unit in
                            if 2 ^ 63 <? d then Invalid
                            else parseSegments fuel' s2 d
                      end
                | EmptyString => Invalid       (* missing unit *)
                end
            end
      end
  end.

Definition ParseDuration (s : string) : parsed :=
  let '(neg, s) :=
    match s with
    | String c s' =>
        if Ascii.eqb c "-" then (true, s')
        else if Ascii.eqb c "+" then (false, s')
        else (false, s)
    | EmptyString => (false, s)
    end in
  if String.eqb s "0" then Value 0
  else if String.eqb s "" then Invalid
  else
    match parseSegments (String.length s) s 0 with
    | Value d =>
        if neg then Value (- d)
        else if 2 ^ 63 - 1 <? d then Invalid else Value d
    | r => r
    end.

End gotime.

(** ** The ISO 8601 duration package

    [formatDefaultValue] uses an external package for ISO 8601 durations
    through two operations: [Parse] and the method [ToTimeDuration]. The
    generator is stated over this interface; [sosodev] below is a model of
    the package the source imports. *)

Class DurationLib : Type := {
  Duration : Type;
  duration_Parse : string → option Duration;     (* None: Parse returned an error *)
  ToTimeDuration : Duration → Z;
}.

Module sosodev.

(** A decimal numeral [mant / 10^scale]. The package keeps each component
    in a float64; the model keeps the decimal itself, which is the same
    number whenever the float64 is exact (every integer below 2^53). Range
    errors of float64 are not modelled. *)
Record decimal : Type := mkDecimal { mant : Z; scale : nat }.

Definition zero : decimal := mkDecimal 0 0.

Record Duration : Type := mkDuration {
  Years : decimal;
  Months : decimal;
  Weeks : decimal;
  Days : decimal;
  Hours : decimal;
  Minutes : decimal;
  Seconds : decimal;
  Negative : bool }.

Inductive parseState : Type := parsingPeriod | parsingTime.

Definition isTime (st : parseState) : bool :=
  match st with parsingTime => true | parsingPeriod => false end.

(** [strconv.ParseFloat] on a text of digits and points: digits with at
    most one point and at least one digit. *)
Fixpoint parseDecimal_loop (s : string) (m : Z) (digits : bool)
    (frac : option nat) : option decimal :=
  match s with
  | EmptyString =>
      if digits then Some (mkDecimal m (default 0%nat frac)) else None
  | String c s' =>
      if gotime.isDigit c then
        parseDecimal_loop s' (m * 10 + (Z.of_N (N_of_ascii c) - 48)) true
                          (S <$> frac)
      else if gotime.isDot c then
        match frac with
        | Some _ => None
        | None => parseDecimal_loop s' m digits (Some 0%nat)
        end
      else None
  end.

Definition ParseFloat (num : string) : option decimal :=
  parseDecimal_loop num 0 false None.

Definition setField (c : ascii) (st : parseState) (x : decimal) (d : Duration)
  : Duration :=
  let 'mkDuration y mo w dd h mi s neg := d in
  if Ascii.eqb c "Y" then mkDuration x mo w dd h mi s neg
  else if Ascii.eqb c "M" then
    (if isTime st then mkDuration y mo w dd h x s neg
     else mkDuration y x w dd h mi s neg)
  else if Ascii.eqb c "W" then mkDuration y mo x dd h mi s neg
  else if Ascii.eqb c "D" then mkDuration y mo w x h mi s neg
  else if Ascii.eqb c "H" then mkDuration y mo w dd x mi s neg
  else mkDuration y mo w dd h mi x neg.

(** The loop of [Parse] over the bytes of the text. Only ASCII digits count
    as numbers here; other bytes that are not designators are rejected. *)
Fixpoint parseLoop (s : string) (st : parseState) (num : string)
    (d : Duration) : option Duration :=
  match s with
  | EmptyString => Some d
  | String c s' =>
      if Ascii.eqb c "P" then
        if isTime st then None else parseLoop s' st num d
      else if Ascii.eqb c "T" then parseLoop s' parsingTime num d
      else if Ascii.eqb c "Y" || Ascii.eqb c "W" || Ascii.eqb c "D" then
        if isTime st then None
        else x ← ParseFloat num; parseLoop s' st "" (setField c st x d)
      else if Ascii.eqb c "M" then
        x ← ParseFloat num; parseLoop s' st "" (setField c st x d)
      else if Ascii.eqb c "H" || Ascii.eqb c "S" then
        if isTime st then
          x ← ParseFloat num; parseLoop s' st "" (setField c st x d)
        else None
      else if gotime.isDigit c || gotime.isDot c then
        parseLoop s' st (num +:+ String c "") d
      else None
  end.

Definition Parse (d : string) : option Duration :=
  let empty := mkDuration zero zero zero zero zero zero zero in
  if String.prefix "P" d then parseLoop d parsingPeriod "" (empty false)
  else if String.prefix "-P" d then
    match d with
    | String _ d' => parseLoop d' parsingPeriod "" (empty true)
    | EmptyString => None
    end
  else None.

Definition hoursPerDay : Z := 24.
Definition hoursPerWeek : Z := hoursPerDay * 7.
Definition hoursPerYear : Z := hoursPerDay * 365.
Definition hoursPerMonth : Z := hoursPerYear / 12.
Definition nsPerSecond : Z := 1000000000.
Definition nsPerMinute : Z := nsPerSecond * 60.
Definition nsPerHour : Z := nsPerMinute * 60.
Definition nsPerDay : Z := nsPerHour * hoursPerDay.
Definition nsPerWeek : Z := nsPerHour * hoursPerWeek.
Definition nsPerMonth : Z := nsPerHour * hoursPerMonth.
Definition nsPerYear : Z := nsPerHour * hoursPerYear.

(** [math.Round (x * ns)] for a decimal [x], which is never negative. *)
Definition roundScaled (x : decimal) (ns : Z) : Z :=
  let den := 10 ^ Z.of_nat (scale x) in
  (2 * mant x * ns + den) / (2 * den).

Definition ToTimeDuration (d : Duration) : Z :=
  let t :=
    roundScaled (Years d) nsPerYear + roundScaled (Months d) nsPerMonth +
    roundScaled (Weeks d) nsPerWeek + roundScaled (Days d) nsPerDay +
    roundScaled (Hours d) nsPerHour + roundScaled (Minutes d) nsPerMinute +
    roundScaled (Seconds d) nsPerSecond in
  if Negative d then - t else t.

End sosodev.

#[export] Instance sosodev_lib : DurationLib := {|
  Duration := sosodev.Duration;
  duration_Parse := sosodev.Parse;
  ToTimeDuration := sosodev.ToTimeDuration |}.

(** ** What constructor.go takes from outside

    Code that constructor.go calls and that is neither in the file nor in
    the standard library: a constant and a helper of package generator, the
    method [Generate] of [codegen.Type], the line breaking of comments in
    the emitter, the dumper of package litter, and [strings.TrimSpace]
    (kept abstract because it is defined over Unicode white space). *)

Class Externals : Type := {
  additionalProperties : string;
  upperFirst : string → string;
  Type_Generate : type → Emitter → Emitter * option error;
  wrapComment : string → Z → list string;
  litter_Sdump : value → string;
  strings_TrimSpace : string → string;
}.

(** ** constructor.go *)

Section generator.

Context {DL : DurationLib} {E : Externals}.

(** The order in which [range] visits the keys of a map. Go leaves it
    unspecified; it is a parameter of every function that ranges over a
    map, so that runs with different orders can be compared. *)
Variable mapRange : gmap string value → list string.

(** Modelled from the spec: [sortedKeys], a helper of package generator
    that is not among the sources; "iteration over key-value containers in
    the core uses sorted-key iteration". It collects the keys in the order
    [range] yields them and sorts them as byte strings. *)
Definition sortedKeys (props : gmap string value) : list string :=
  merge_sort String.le (mapRange props).

(** [dvm[k]]: the zero value (nil) for a missing key. *)
Definition mapIndex (dvm : gmap string value) (k : string) : value :=
  default VNil (dvm !! k).

(** [tryFormatSlice]; [None] is the nil error. *)
Definition tryFormatSlice (defaultValue : value) : option error :=
  if negb (isSliceKind defaultValue) then Some ErrCannotFindSlideToDump
  else
    match defaultValue with
    | VSlice _ => None
    | _ => Some ErrInvalidDefaultValue
    end.

Definition formatSliceValue (fieldType : type) (defaultValue : value)
    (maxLineLen : Z) : result string :=
  let tmpEmitter := NewEmitter maxLineLen in
  match Type_Generate fieldType tmpEmitter with
  | (_, Some err) => Err (ErrCannotDumpDefaultSlice err)
  | (tmpEmitter, None) =>
      match defaultValue with
      | VSlice df =>
          if decide (length df = 0%nat)
          then Ok (Emitter_String tmpEmitter +:+ "{}")
          else
            let tmpEmitter := Printlnf "{" tmpEmitter in
            let tmpEmitter :=
              foldl (λ e v, Printlnf (litter_Sdump v +:+ ",") e) tmpEmitter df in
            let tmpEmitter := Printf "}" tmpEmitter in
            Ok (Emitter_String tmpEmitter)
      | _ => Err ErrInvalidDefaultValue
      end
  end.

(** The loop over [sortedKeys(dvm)] in the named-type branch. *)
Definition namedFieldsOf (dvm : gmap string value) : string :=
  foldl (λ namedFields k,
           namedFields +:+ nl +:+ upperFirst k +:+ ": "
             +:+ litter_Sdump (mapIndex dvm k) +:+ ",")
        "" (sortedKeys dvm).

(** The expression emitted for a duration default. *)
Definition durationExpr (goDurationStr : string) : string :=
  "func() time.Duration { d, _ := time.ParseDuration("
    +:+ strconv.Quote goDurationStr +:+ "); return d }()".

Definition formatDefaultValue (fieldType : type) (defaultValue : value)
    (maxLineLen : Z) : result string :=
  match fieldType, defaultValue with
  | NamedType Decl, VMap dvm =>
      let namedFields := namedFieldsOf dvm in
      let namedFields :=
        if decide (namedFields = "") then namedFields else namedFields +:+ nl in
      Ok (GetName Decl +:+ "{" +:+ namedFields +:+ "}")
  | _, _ =>
      match fieldType with
      | DurationType =>
          match defaultValue with
          | VString defaultDurationISO8601 =>
              if decide (defaultDurationISO8601 = "") then Err ErrDurationIsEmpty
              else
                match duration_Parse defaultDurationISO8601 with
                | None => Err ErrCannotConvertISO8601ToGoFormat
                | Some d =>
                    let goDurationStr := gotime.Duration_String (ToTimeDuration d) in
                    Ok (durationExpr goDurationStr)
                end
          | _ => Err (ErrDefaultDurationIsNotAString (typeName defaultValue))
          end
      | _ =>
          match tryFormatSlice defaultValue with
          | None => formatSliceValue fieldType defaultValue maxLineLen
          | Some _ => Ok (strings_TrimSpace (litter_Sdump defaultValue))
          end
      end
  end.

(** [hasDefaults]. *)
Fixpoint anyDefault (fields : list structField) : bool :=
  match fields with
  | [] => false
  | f :: fields' =>
      if negb (isNil (field_DefaultValue f)) then true else anyDefault fields'
  end.

Definition hasDefaults (decl : typeDecl) : bool :=
  match decl_Type decl with
  | StructType Fields => anyDefault Fields
  | _ => false
  end.

(** The text of one initializer line, [Printlnf("%s: %s,", ...)]. *)
Definition initializer (name defaultStr : string) : string :=
  name +:+ ": " +:+ defaultStr +:+ ",".

(** The loop [for _, f := range st.Fields] of [generate]: the emitter
    after the loop and the error that ended it, if any. *)
Fixpoint generateFields (fields : list structField) (out : Emitter)
  : Emitter * option error :=
  match fields with
  | [] => (out, None)
  | f :: fields' =>
      if negb (isNil (field_DefaultValue f)) then
        if decide (field_Name f = additionalProperties) then
          generateFields fields' out
        else
          match formatDefaultValue (field_Type f) (field_DefaultValue f)
                                   (MaxLineLength out) with
          | Err err => (out, Some (ErrCannotFormatField (field_Name f) err))
          | Ok defaultStr =>
              generateFields fields'
                (Printlnf (initializer (field_Name f) defaultStr) out)
          end
      else generateFields fields' out
  end.

(** The opening lines of the constructor. *)
Definition openConstructor (typeName : string) (out : Emitter) : Emitter :=
  let out :=
    Commentf wrapComment
      ("New" +:+ typeName +:+ " creates a new " +:+ typeName
         +:+ " with default values.") out in
  let out := Printlnf ("func New" +:+ typeName +:+ "() " +:+ typeName +:+ " {") out in
  let out := Indent 1 out in
  let out := Printlnf ("return " +:+ typeName +:+ "{") out in
  Indent 1 out.

(** The closing lines of the constructor. *)
Definition closeConstructor (out : Emitter) : Emitter :=
  let out := Indent (-1) out in
  let out := Printlnf "}" out in
  let out := Indent (-1) out in
  Printlnf "}" out.

(** [generate]: the function it returns, applied to an emitter. *)
Definition generate (decl : typeDecl) (out : Emitter) : Emitter * option error :=
  match decl_Type decl with
  | StructType Fields =>
      let typeName := decl_Name decl in
      let out := openConstructor typeName out in
      match generateFields Fields out with
      | (out, Some err) => (out, Some err)
      | (out, None) => (closeConstructor out, None)
      end
  | _ => (out, None)
  end.

End generator.

(** ** The value of an emitted duration expression

    The expression [durationExpr lit] is a closure, called on the spot,
    that runs [time.ParseDuration] on a string literal, drops the error and
    returns the duration, which is zero when parsing failed. [evalDurationExpr]
    reads such an expression back and gives the duration Go computes for it. *)

Module goeval.

Fixpoint stripPrefix (p s : string) : option string :=
  match p, s with
  | EmptyString, _ => Some s
  | String a p', String b s' => if Ascii.eqb a b then stripPrefix p' s' else None
  | String _ _, EmptyString => None
  end.

Definition hexValue (c : ascii) : option N :=
  let n := N_of_ascii c in
  if ((48 <=? n) && (n <=? 57))%N then Some (n - 48)%N
  else if ((97 <=? n) && (n <=? 102))%N then Some (n - 87)%N
  else None.

Definition simpleEscape (c : ascii) : option ascii :=
  if Ascii.eqb c "a" then Some "007"%char
  else if Ascii.eqb c "b" then Some "008"%char
  else if Ascii.eqb c "f" then Some "012"%char
  else if Ascii.eqb c "n" then Some "010"%char
  else if Ascii.eqb c "r" then Some "013"%char
  else if Ascii.eqb c "t" then Some "009"%char
  else if Ascii.eqb c "v" then Some "011"%char
  else if Ascii.eqb c strconv.backslash then Some strconv.backslash
  else if Ascii.eqb c strconv.dq then Some strconv.dq
  else None.

Definition consFst (c : ascii) (r : option (string * string))
  : option (string * string) :=
  '(lit, rest) ← r; Some (String c lit, rest).

(** The bytes of an interpreted string literal whose opening quote has been
    read, and the text behind its closing quote. *)
Fixpoint unquoteBody (s : string) : option (string * string) :=
  match s with
  | EmptyString => None
  | String c s1 =>
      if Ascii.eqb c strconv.dq then Some ("", s1)
      else if Ascii.eqb c strconv.backslash then
        match s1 with
        | EmptyString => None
        | String e s2 =>
            if Ascii.eqb e "x" then
              match s2 with
              | String h (String l s3) =>
                  hi ← hexValue h; lo ← hexValue l;
                  consFst (ascii_of_N (16 * hi + lo)) (unquoteBody s3)
              | _ => None
              end
            else b ← simpleEscape e; consFst b (unquoteBody s2)
        end
      else consFst c (unquoteBody s1)
  end.

Definition evalDurationExpr (expr : string) : option Z :=
  rest ← stripPrefix "func() time.Duration { d, _ := time.ParseDuration(" expr;
  match rest with
  | String q rest' =>
      if Ascii.eqb q strconv.dq then
        '(lit, tail) ← unquoteBody rest';
        if String.eqb tail "); return d }()" then
          match gotime.ParseDuration lit with
          | gotime.Value d => Some d
          | gotime.Invalid => Some 0
          | gotime.Fraction => None
          end
        else None
      else None
  | EmptyString => None
  end.

End goeval.

(** ** A reference instantiation

    Simple stand-ins for the outside code, used to run the generator on
    concrete declarations. The dumper prints scalars the way litter does
    and knows composite values only when they are empty. *)

Module reference.

(** Modelled from the spec: the constant [additionalProperties] of package
    generator, the name of the "additional properties" catch-all field. *)
Definition additionalProperties : string := "AdditionalProperties".

(** Modelled from the spec: the helper [upperFirst] of package generator;
    field names are property names with an upper-case first letter. *)
Definition upperFirst (s : string) : string :=
  match s with
  | EmptyString => ""
  | String c s' =>
      let n := N_of_ascii c in
      if ((97 <=? n) && (n <=? 122))%N then String (ascii_of_N (n - 32)) s'
      else s
  end.

(** Modelled from the spec: how a structural type reads in Go source. A
    struct body is not spelled out. *)
Fixpoint typeText (t : type) : string :=
  match t with
  | NamedType Decl => decl_Name Decl
  | DurationType => "time.Duration"
  | PrimitiveType name => name
  | ArrayType elem => "[]" +:+ typeText elem
  | MapType k v => "map[" +:+ typeText k +:+ "]" +:+ typeText v
  | PointerType elem => "*" +:+ typeText elem
  | EmptyInterfaceType => "interface{}"
  | StructType _ => "struct{}"
  end.

(** Modelled from the spec: the method [Generate] of [codegen.Type], which
    renders the type into the emitter. *)
Definition Type_Generate (t : type) (out : Emitter) : Emitter * option error :=
  (Printf (typeText t) out, None).

(** A line breaking that never breaks. *)
Definition wrapComment (text : string) (limit : Z) : list string := [text].

(** The dump of a value by package litter, for nil, booleans, integers and
    strings, and for empty composite values. *)
Definition litter_Sdump (v : value) : string :=
  match v with
  | VNil => "nil"
  | VBool b => if b then "true" else "false"
  | VInt n => pretty n
  | VString s => strconv.Quote s
  | _ => typeName v +:+ "{}"
  end.

(** [strings.TrimSpace] for ASCII white space. *)
Fixpoint trimLeft (s : string) : string :=
  match s with
  | String c s' => if Ascii.is_space c then trimLeft s' else s
  | EmptyString => ""
  end.

Definition strings_TrimSpace (s : string) : string :=
  String.rev (trimLeft (String.rev (trimLeft s))).

Definition externals : Externals :=
  Build_Externals additionalProperties upperFirst Type_Generate wrapComment
                  litter_Sdump strings_TrimSpace.

(** One admissible order for [range]: the keys as the map lists them. *)
Definition mapRange (m : gmap string value) : list string := (map_to_list m).*1.

End reference.

(** ** Vocabulary of the statements *)

(** Printing a list of lines, each produced by [f]. *)
Definition printAll {A : Type} (f : A → string) (l : list A) (e : Emitter)
  : Emitter :=
  foldl (λ e a, Printlnf (f a) e) e l.

Section vocabulary.

Context {DL : DurationLib} {E : Externals}.
Variable mapRange : gmap string value → list string.

(** The fields the loop prints: a default that is not nil, and not the
    catch-all field. *)
Definition initialized (f : structField) : bool :=
  negb (isNil (field_DefaultValue f))
  && negb (bool_decide (field_Name f = additionalProperties)).

Definition formats (maxLineLen : Z) (f : structField) : bool :=
  isOk (formatDefaultValue mapRange (field_Type f) (field_DefaultValue f) maxLineLen).

(** The text [formatDefaultValue] returns for the default of [f]. *)
Definition defaultStr (maxLineLen : Z) (f : structField) : string :=
  match formatDefaultValue mapRange (field_Type f) (field_DefaultValue f) maxLineLen with
  | Ok s => s
  | Err _ => ""
  end.

Definition initializerOf (maxLineLen : Z) (f : structField) : string :=
  initializer (field_Name f) (defaultStr maxLineLen f).

(** The doc comment of the constructor of [X]. *)
Definition docComment (X : string) (out : Emitter) : Emitter :=
  Commentf wrapComment
    ("New" +:+ X +:+ " creates a new " +:+ X +:+ " with default values.") out.

(** The lines that close the literal and the function, for an emitter that
    was at indentation [ind] before the constructor. *)
Definition closingText (ind : Z) : string :=
  gostring.tabs (ind + 1) +:+ "}" +:+ nl +:+ gostring.tabs ind +:+ "}" +:+ nl.

(** One line of the literal per field of [inits]. *)
Definition bodyText (maxLineLen ind : Z) (inits : list structField) : string :=
  gostring.concat
    (map (λ f, gostring.tabs (ind + 2)
                 +:+ initializer (field_Name f) (defaultStr maxLineLen f)
                 +:+ nl) inits).

(** The text of one entry of a named-type default. *)
Definition namedField (dvm : gmap string value) (k : string) : string :=
  nl +:+ upperFirst k +:+ ": " +:+ litter_Sdump (mapIndex dvm k) +:+ ",".

End vocabulary.

(** ** Declarations used as examples *)

Module example.

Definition inner : typeDecl :=
  TypeDecl "Inner"
    (StructType [StructField "Host" (PrimitiveType "string") (VString "localhost");
                 StructField "Port" (PrimitiveType "int") VNil]).

Definition config_fields : list structField :=
  [StructField "Name" (PrimitiveType "string") (VString "x");
   StructField "Age" (PointerType (PrimitiveType "int")) VNil;
   StructField "Timeout" DurationType (VString "PT30S");
   StructField "Tags" (ArrayType (PrimitiveType "string"))
               (VSlice [VString "a"; VString "b"]);
   StructField "Inner" (NamedType inner)
               (VMap (<["port" := VInt 80]> (<["host" := VString "y"]> ∅)));
   StructField "AdditionalProperties"
               (MapType (PrimitiveType "string") EmptyInterfaceType) (VMap ∅)].

Definition config : typeDecl := TypeDecl "Config" (StructType config_fields).

(** A struct whose only default sits on the catch-all field. *)
Definition open_map_fields : list structField :=
  [StructField "Verbose" (PrimitiveType "bool") VNil;
   StructField "AdditionalProperties"
               (MapType (PrimitiveType "string") EmptyInterfaceType) (VMap ∅)].

Definition open_map : typeDecl := TypeDecl "Options" (StructType open_map_fields).

(** A struct with a duration default that is not ISO 8601. *)
Definition bad_timeout : typeDecl :=
  TypeDecl "Server"
    (StructType [StructField "Name" (PrimitiveType "string") (VString "x");
                 StructField "Timeout" DurationType (VString "30 seconds")]).

Definition alias : typeDecl := TypeDecl "Names" (ArrayType (PrimitiveType "string")).

Definition run (decl : typeDecl) : Emitter * option error :=
  generate (DL := sosodev_lib) (E := reference.externals) reference.mapRange
           decl (NewEmitter 80).

End example.

(** ** Vocabulary of the further properties *)

Section more_vocabulary.

Context {DL : DurationLib} {E : Externals}.
Variable mapRange : gmap string value → list string.

(** The comment lines that [Commentf] prints for [text] at the start of a
    line, at indentation [ind] and with [limit] columns left. *)
Definition commentText (ind limit : Z) (text : string) : string :=
  if decide (text = "") then ""
  else gostring.concat
         (map (λ line, gostring.tabs ind +:+ "// " +:+ line +:+ nl)
              (wrapComment text limit)).

(** The whole text of the constructor of [X], printed from the start of a
    line at indentation [ind] with maximum line length [maxLineLen]. *)
Definition constructorText (X : string) (Fields : list structField)
    (ind maxLineLen : Z) : string :=
  commentText ind (Z.max (maxLineLen - ind) 0)
              ("New" +:+ X +:+ " creates a new " +:+ X +:+ " with default values.")
    +:+ gostring.tabs ind +:+ "func New" +:+ X +:+ "() " +:+ X +:+ " {" +:+ nl
    +:+ gostring.tabs (ind + 1) +:+ "return " +:+ X +:+ "{" +:+ nl
    +:+ bodyText mapRange maxLineLen ind (List.filter initialized Fields)
    +:+ closingText ind.

(** The text of one entry of a named-type default, from a binding of the
    default object. *)
Definition namedEntry (kv : string * value) : string :=
  nl +:+ upperFirst kv.1 +:+ ": " +:+ litter_Sdump kv.2 +:+ ",".

End more_vocabulary.

(** Library text, for the round trip of durations. *)

(** The string starts with a decimal digit. *)
Definition headDigit (s : string) : bool :=
  match s with String c _ => gotime.isDigit c | EmptyString => false end.

(** A byte that [strconv.Quote] copies as it is. *)
Definition plain (c : ascii) : bool :=
  let n := N_of_ascii c in
  negb (Ascii.eqb c strconv.dq) && negb (Ascii.eqb c strconv.backslash)
  && (32 <=? n)%N && negb (n =? 127)%N.

(** All bytes of [s] are [plain]. *)
Fixpoint allPlain (s : string) : bool :=
  match s with
  | EmptyString => true
  | String c s' => plain c && allPlain s'
  end.

(** What [time.Duration.String] prints for [s] whole seconds, [s]
    positive: hours, minutes and seconds, the leading zero units left out. *)
Definition secondsText (s : Z) : string :=
  let buf := gotime.fmtInt "s" (s mod 60) in
  let u := s / 60 in
  if 0 <? u then
    let buf := gotime.fmtInt (String "m" buf) (u mod 60) in
    let u := u / 60 in
    if 0 <? u then gotime.fmtInt (String "h" buf) u else buf
  else buf.

(** What the ISO 8601 model reads from ["PT1H30M"]. *)
Definition ninety_minutes : sosodev.Duration :=
  sosodev.mkDuration sosodev.zero sosodev.zero sosodev.zero sosodev.zero
                     (sosodev.mkDecimal 1 0) (sosodev.mkDecimal 30 0)
                     sosodev.zero false.

(** A stand-in for the outside code whose [Generate] fails on every type. *)
Definition broken_externals : Externals :=
  Build_Externals reference.additionalProperties reference.upperFirst
                  (λ _ out, (out, Some (ErrForeign "cannot render")))
                  reference.wrapComment reference.litter_Sdump
                  reference.strings_TrimSpace.

(** * Properties *)

(** ** Byte strings *)

Lemma app_nil_l (s : string) : "" +:+ s = s.
Proof. reflexivity. Qed.

Lemma app_cons (c : ascii) (s1 s2 : string) :
  String c s1 +:+ s2 = String c (s1 +:+ s2).
Proof. reflexivity. Qed.

Lemma app_nil_r (s : string) : s +:+ "" = s.
Proof. induction s as [|c s IH]; [done | by rewrite app_cons, IH]. Qed.

Lemma app_assoc (s1 s2 s3 : string) : s1 +:+ (s2 +:+ s3) = (s1 +:+ s2) +:+ s3.
Proof. induction s1 as [|c s1 IH]; [done | by rewrite !app_cons, IH]. Qed.

Lemma app_eq_nil (s1 s2 : string) : s1 +:+ s2 = "" → s1 = "" ∧ s2 = "".
Proof. destruct s1; [done|]. by rewrite app_cons. Qed.

Lemma concat_cons (s : string) (l : list string) :
  gostring.concat (s :: l) = s +:+ gostring.concat l.
Proof. reflexivity. Qed.

Lemma concat_app (l1 l2 : list string) :
  gostring.concat (l1 ++ l2) = gostring.concat l1 +:+ gostring.concat l2.
Proof.
  induction l1 as [|s l1 IH]; [done|].
  by rewrite <- app_comm_cons, !concat_cons, IH, app_assoc.
Qed.

Lemma prefix_app (sub post : string) : String.prefix sub (sub +:+ post) = true.
Proof.
  induction sub as [|c sub IH]; [by destruct post|].
  rewrite app_cons. cbn. by destruct (ascii_dec c c).
Qed.

Lemma contains_prefix (sub post : string) :
  gostring.contains sub (sub +:+ post) = true.
Proof.
  pose proof (prefix_app sub post) as H.
  destruct (sub +:+ post); cbn in *; by rewrite H.
Qed.

Lemma contains_app (pre sub post : string) :
  gostring.contains sub (pre +:+ sub +:+ post) = true.
Proof.
  induction pre as [|c pre IH]; [rewrite app_nil_l; apply contains_prefix|].
  rewrite app_cons. cbn. rewrite IH. apply orb_true_r.
Qed.

(** ** The library models on known values *)

Example Duration_String_examples :
  gotime.Duration_String 30000000000 = "30s"
  ∧ gotime.Duration_String 0 = "0s"
  ∧ gotime.Duration_String 3600000000000 = "1h0m0s"
  ∧ gotime.Duration_String (-5400500000000) = "-1h30m0.5s"
  ∧ gotime.Duration_String 999 = "999ns"
  ∧ gotime.Duration_String 1500 = "1.5" +:+ gotime.micro +:+ "s"
  ∧ gotime.Duration_String 1000000 = "1ms".
Proof. split_and!; vm_compute; reflexivity. Qed.

Example ParseDuration_examples :
  gotime.ParseDuration "30s" = gotime.Value 30000000000
  ∧ gotime.ParseDuration "1h0m0s" = gotime.Value 3600000000000
  ∧ gotime.ParseDuration "-1h30m" = gotime.Value (-5400000000000)
  ∧ gotime.ParseDuration "0" = gotime.Value 0
  ∧ gotime.ParseDuration "30" = gotime.Invalid
  ∧ gotime.ParseDuration "3x" = gotime.Invalid
  ∧ gotime.ParseDuration "" = gotime.Invalid
  ∧ gotime.ParseDuration "9223372036854775808ns" = gotime.Invalid
  ∧ gotime.ParseDuration "1.5s" = gotime.Fraction.
Proof. split_and!; vm_compute; reflexivity. Qed.

Example iso8601_examples :
  (ToTimeDuration <$> duration_Parse "PT30S") = Some 30000000000
  ∧ (ToTimeDuration <$> duration_Parse "P1DT1.5S") = Some 86401500000000
  ∧ (ToTimeDuration <$> duration_Parse "-PT1M") = Some (-60000000000)
  ∧ (ToTimeDuration <$> duration_Parse "PT") = Some 0
  ∧ (ToTimeDuration <$> duration_Parse "30S") = None
  ∧ (ToTimeDuration <$> duration_Parse "P30S") = None
  ∧ (ToTimeDuration <$> duration_Parse "PTS") = None
  ∧ (ToTimeDuration <$> duration_Parse "30 seconds") = None.
Proof. split_and!; vm_compute; reflexivity. Qed.

Example Quote_examples :
  strconv.Quote "30s" = String strconv.dq ("30s" +:+ String strconv.dq "")
  ∧ strconv.Quote (String "009" "a")
      = String strconv.dq (String strconv.backslash ("ta" +:+ String strconv.dq "")).
Proof. split_and!; vm_compute; reflexivity. Qed.

(** ** The emitter *)

Lemma sb_Printf text e : sb (Printf text e) = sb e +:+ margin e +:+ text.
Proof.
  unfold Printf, checkIndent, margin. destruct (start e); cbn.
  - by rewrite app_assoc.
  - done.
Qed.

Lemma sb_Printlnf text e :
  sb (Printlnf text e) = sb e +:+ margin e +:+ text +:+ nl.
Proof.
  unfold Printlnf, Newline. cbn [sb]. rewrite sb_Printf.
  by rewrite <- !app_assoc.
Qed.

Lemma indent_Printlnf text e : indent (Printlnf text e) = indent e.
Proof. unfold Printlnf, Newline, Printf, checkIndent. by destruct (start e). Qed.

Lemma start_Printlnf text e : start (Printlnf text e) = true.
Proof. reflexivity. Qed.

Lemma maxLineLength_Printlnf text e :
  maxLineLength (Printlnf text e) = maxLineLength e.
Proof. unfold Printlnf, Newline, Printf, checkIndent. by destruct (start e). Qed.

Lemma margin_at_start e : start e = true → margin e = gostring.tabs (indent e).
Proof. unfold margin. by intros ->. Qed.

Lemma sb_Indent n e : sb (Indent n e) = sb e.
Proof. reflexivity. Qed.

Lemma indent_Indent n e : indent (Indent n e) = indent e + n.
Proof. reflexivity. Qed.

Lemma start_Indent n e : start (Indent n e) = start e.
Proof. reflexivity. Qed.

Lemma maxLineLength_Indent n e : maxLineLength (Indent n e) = maxLineLength e.
Proof. reflexivity. Qed.

Create Rewrite HintDb emitter.
#[export] Hint Rewrite sb_Indent indent_Indent start_Indent maxLineLength_Indent
  indent_Printlnf start_Printlnf maxLineLength_Printlnf : emitter.

(** Lines printed from the start of a line all get the same indentation. *)
Section print_lines.

Context {A : Type} (f : A → string).

Lemma printAll_cons a l e : printAll f (a :: l) e = printAll f l (Printlnf (f a) e).
Proof. reflexivity. Qed.

Lemma indent_printAll l e : indent (printAll f l e) = indent e.
Proof.
  revert e. induction l as [|a l IH]; intros e; [done|].
  by rewrite printAll_cons, IH, indent_Printlnf.
Qed.

Lemma maxLineLength_printAll l e :
  maxLineLength (printAll f l e) = maxLineLength e.
Proof.
  revert e. induction l as [|a l IH]; intros e; [done|].
  by rewrite printAll_cons, IH, maxLineLength_Printlnf.
Qed.

Lemma start_printAll l e : start e = true → start (printAll f l e) = true.
Proof.
  revert e. induction l as [|a l IH]; intros e He; [done|].
  rewrite printAll_cons. by apply IH.
Qed.

Lemma sb_printAll l e :
  start e = true →
  sb (printAll f l e) =
    sb e +:+ gostring.concat
               (map (λ a, gostring.tabs (indent e) +:+ f a +:+ nl) l).
Proof.
  revert e. induction l as [|a l IH]; intros e He.
  - cbn. by rewrite app_nil_r.
  - rewrite printAll_cons, IH by done.
    rewrite sb_Printlnf, indent_Printlnf, margin_at_start by done.
    cbn [map]. rewrite concat_cons. by rewrite <- !app_assoc.
Qed.

End print_lines.

(** ** The loop of [generate] *)

Section generate_facts.

Context {DL : DurationLib} {E : Externals}.
Variable mapRange : gmap string value → list string.

Lemma initialized_spec f :
  initialized f = true ↔
  field_DefaultValue f ≠ VNil ∧ field_Name f ≠ additionalProperties.
Proof.
  unfold initialized. rewrite andb_true_iff, !negb_true_iff, bool_decide_eq_false.
  destruct (field_DefaultValue f); cbn;
    (split; intros [? ?]; (split; [congruence|done])).
Qed.

Lemma generateFields_ok fields : ∀ out,
  Forall (λ f, formats mapRange (MaxLineLength out) f = true) (List.filter initialized fields) →
  generateFields mapRange fields out =
    (printAll (initializerOf mapRange (MaxLineLength out)) (List.filter initialized fields) out,
     None).
Proof.
  induction fields as [|f fields IH]; intros out Hall; [done|].
  cbn [generateFields List.filter] in *. unfold initialized in Hall |- * at 1.
  destruct (isNil (field_DefaultValue f)); cbn [negb andb] in *; [by apply IH|].
  destruct (decide (field_Name f = additionalProperties)) as [Hn|Hn].
  - rewrite bool_decide_eq_true_2 in * by done. by apply IH.
  - rewrite bool_decide_eq_false_2 in * by done. cbn [negb] in *.
    apply Forall_cons in Hall as [Hf Hall].
    rewrite printAll_cons. unfold initializerOf at 2. unfold defaultStr.
    unfold formats in Hf.
    destruct (formatDefaultValue _ _ _ _) as [s|e]; [|done].
    rewrite IH; unfold MaxLineLength in *; rewrite maxLineLength_Printlnf; done.
Qed.

Lemma generateFields_err fields : ∀ out,
  Exists (λ f, formats mapRange (MaxLineLength out) f = false) (List.filter initialized fields) →
  ∃ out' f err,
    In f (List.filter initialized fields) ∧
    formatDefaultValue mapRange (field_Type f) (field_DefaultValue f)
                       (MaxLineLength out) = Err err ∧
    generateFields mapRange fields out =
      (out', Some (ErrCannotFormatField (field_Name f) err)).
Proof.
  induction fields as [|f fields IH]; intros out Hex.
  { by apply Exists_nil in Hex. }
  cbn [generateFields List.filter] in *. unfold initialized in Hex |- * at 1 2.
  destruct (isNil (field_DefaultValue f)); cbn [negb andb] in *; [by apply IH|].
  destruct (decide (field_Name f = additionalProperties)) as [Hn|Hn].
  - rewrite bool_decide_eq_true_2 in * by done. by apply IH.
  - rewrite bool_decide_eq_false_2 in * by done. cbn [negb] in *.
    destruct (formatDefaultValue mapRange (field_Type f) (field_DefaultValue f)
                (MaxLineLength out)) as [s|e] eqn:Hfmt.
    + apply Exists_cons in Hex as [Hf|Hex].
      { unfold formats in Hf. by rewrite Hfmt in Hf. }
      destruct (IH (Printlnf (initializer (field_Name f) s) out))
        as (out' & f' & err & Hin & Hf' & Hgen).
      { unfold MaxLineLength in *. by rewrite maxLineLength_Printlnf. }
      exists out', f', err. split_and!; [by right| |done].
      unfold MaxLineLength in *. by rewrite maxLineLength_Printlnf in Hf'.
    + exists out, f, e. split_and!; [by left|done..].
Qed.

(** Whatever the outcome, the loop only appends to the text. *)
Lemma generateFields_extends fields : ∀ out,
  ∃ rest, sb (generateFields mapRange fields out).1 = sb out +:+ rest.
Proof.
  induction fields as [|f fields IH]; intros out.
  { exists "". by rewrite app_nil_r. }
  cbn [generateFields].
  destruct (negb (isNil (field_DefaultValue f))); [|apply IH].
  destruct (decide _); [apply IH|].
  destruct (formatDefaultValue _ _ _ _) as [s|e].
  - destruct (IH (Printlnf (initializer (field_Name f) s) out)) as [rest Hrest].
    rewrite Hrest, sb_Printlnf. eexists. by rewrite <- !app_assoc.
  - exists "". by rewrite app_nil_r.
Qed.

(** The loop succeeds exactly when every printed field formats. *)
Lemma generateFields_None fields out out' :
  generateFields mapRange fields out = (out', None) →
  Forall (λ f, formats mapRange (MaxLineLength out) f = true) (List.filter initialized fields).
Proof.
  intros Hgen. apply Forall_forall. intros f Hin.
  destruct (formats mapRange (MaxLineLength out) f) eqn:Hf; [done|].
  destruct (generateFields_err fields out) as (? & ? & ? & _ & _ & Hgen').
  { apply Exists_exists. eauto. }
  congruence.
Qed.

End generate_facts.

(** ** The frame that [generate] prints around the loop *)

Section constructor_text.

Context {DL : DurationLib} {E : Externals}.
Variable mapRange : gmap string value → list string.

Lemma Commentf_printAll wrap text e :
  Commentf wrap text e =
    if decide (text = "") then e
    else printAll (λ line, "// " +:+ line)
                  (wrap text (Z.max (maxLineLength e - indent e) 0)) e.
Proof. reflexivity. Qed.

Lemma indent_Commentf wrap text e : indent (Commentf wrap text e) = indent e.
Proof.
  rewrite Commentf_printAll. destruct (decide _); [done|apply indent_printAll].
Qed.

Lemma maxLineLength_Commentf wrap text e :
  maxLineLength (Commentf wrap text e) = maxLineLength e.
Proof.
  rewrite Commentf_printAll. destruct (decide _); [done|apply maxLineLength_printAll].
Qed.

Lemma start_openConstructor X out : start (openConstructor X out) = true.
Proof. reflexivity. Qed.

Lemma indent_openConstructor X out :
  indent (openConstructor X out) = indent out + 2.
Proof.
  unfold openConstructor. autorewrite with emitter.
  rewrite indent_Commentf. lia.
Qed.

Lemma maxLineLength_openConstructor X out :
  maxLineLength (openConstructor X out) = maxLineLength out.
Proof.
  unfold openConstructor. autorewrite with emitter.
  apply maxLineLength_Commentf.
Qed.

Lemma sb_openConstructor X out :
  sb (openConstructor X out) =
    sb (docComment X out) +:+ margin (docComment X out)
      +:+ "func New" +:+ X +:+ "() " +:+ X +:+ " {" +:+ nl
      +:+ gostring.tabs (indent out + 1) +:+ "return " +:+ X +:+ "{" +:+ nl.
Proof.
  unfold openConstructor. fold (docComment X out).
  rewrite sb_Indent, sb_Printlnf, margin_at_start by done.
  rewrite sb_Indent, sb_Printlnf. autorewrite with emitter.
  unfold docComment at 3. rewrite indent_Commentf.
  by rewrite <- !app_assoc.
Qed.

Lemma sb_closeConstructor e :
  start e = true →
  sb (closeConstructor e) = sb e +:+ closingText (indent e - 2).
Proof.
  intros He. unfold closeConstructor, closingText.
  rewrite sb_Printlnf, margin_at_start by done.
  rewrite sb_Indent, sb_Printlnf, margin_at_start by done.
  autorewrite with emitter.
  replace (indent e - 2 + 1) with (indent e + -1) by lia.
  replace (indent e + -1 + -1) with (indent e - 2) by lia.
  by rewrite <- !app_assoc.
Qed.

(** [generate] on a struct declaration whose printed fields all format. *)
Lemma generate_struct_ok X Fields out :
  Forall (λ f, formats mapRange (MaxLineLength out) f = true)
         (List.filter initialized Fields) →
  ∃ out',
    generate mapRange (TypeDecl X (StructType Fields)) out = (out', None) ∧
    Emitter_String out' =
      Emitter_String (openConstructor X out)
        +:+ bodyText mapRange (MaxLineLength out) (indent out) (List.filter initialized Fields)
        +:+ closingText (indent out).
Proof.
  intros Hall. eexists. unfold generate. cbn [decl_Type decl_Name].
  rewrite generateFields_ok; last first.
  { unfold MaxLineLength in *. by rewrite maxLineLength_openConstructor. }
  split; [done|]. unfold Emitter_String.
  rewrite sb_closeConstructor by (by apply start_printAll).
  rewrite sb_printAll by done.
  rewrite indent_printAll, indent_openConstructor.
  unfold MaxLineLength. rewrite maxLineLength_openConstructor.
  replace (indent out + 2 - 2) with (indent out) by lia.
  unfold bodyText, initializerOf. by rewrite <- !app_assoc.
Qed.

(** [generate] on a struct declaration with a printed field that does not
    format: the error of that field, wrapped with the field's name. *)
Lemma generate_struct_err X Fields out :
  Exists (λ f, formats mapRange (MaxLineLength out) f = false)
         (List.filter initialized Fields) →
  ∃ out' f err,
    In f (List.filter initialized Fields) ∧
    formatDefaultValue mapRange (field_Type f) (field_DefaultValue f)
                       (MaxLineLength out) = Err err ∧
    generate mapRange (TypeDecl X (StructType Fields)) out =
      (out', Some (ErrCannotFormatField (field_Name f) err)).
Proof.
  intros Hex. unfold generate. cbn [decl_Type decl_Name].
  destruct (generateFields_err mapRange Fields (openConstructor X out))
    as (out' & f & err & Hin & Hf & Hgen).
  { unfold MaxLineLength in *. by rewrite maxLineLength_openConstructor. }
  exists out', f, err. rewrite Hgen. split_and!; [done| |done].
  unfold MaxLineLength in *. by rewrite maxLineLength_openConstructor in Hf.
Qed.

Lemma generateFields_None_open X Fields out out' :
  generateFields mapRange Fields (openConstructor X out) = (out', None) →
  Forall (λ f, formats mapRange (MaxLineLength out) f = true)
         (List.filter initialized Fields).
Proof.
  intros Hg%generateFields_None.
  unfold MaxLineLength in *. by rewrite maxLineLength_openConstructor in Hg.
Qed.

Lemma generate_struct_None X Fields out out' :
  generate mapRange (TypeDecl X (StructType Fields)) out = (out', None) →
  Forall (λ f, formats mapRange (MaxLineLength out) f = true)
         (List.filter initialized Fields).
Proof.
  intros Hgen. apply Forall_forall. intros f Hin.
  destruct (formats mapRange (MaxLineLength out) f) eqn:Hf; [done|].
  destruct (generate_struct_err X Fields out) as (? & ? & ? & _ & _ & Hgen').
  { apply Exists_exists. eauto. }
  congruence.
Qed.

End constructor_text.

(** ** [hasDefaults] and [generate] *)

Section generate_claims.

Context {DL : DurationLib} {E : Externals}.
Variable mapRange : gmap string value → list string.

Lemma anyDefault_spec Fields :
  anyDefault Fields = true ↔ ∃ f, In f Fields ∧ field_DefaultValue f ≠ VNil.
Proof.
  induction Fields as [|f Fields IH]; cbn [anyDefault].
  { split; [done|]. by intros (? & [] & _). }
  destruct (field_DefaultValue f) eqn:Hd; cbn [isNil negb].
  1: { rewrite IH. split.
       - intros (g & Hin & Hg). exists g. split; [by right|done].
       - intros (g & [->|Hin] & Hg); [congruence|eauto]. }
  all: split; [intros _|done]; exists f; split; [by left|congruence].
Qed.

(** C9. When the body of the declaration is not a struct type, [generate]
    returns no error and leaves the emitter as it was; [hasDefaults] is
    true exactly for a struct type with a field whose default is not nil. *)
Theorem generate_leaves_non_struct_alone (decl : typeDecl) (out : Emitter) :
  ((∀ Fields, decl_Type decl ≠ StructType Fields) →
     generate mapRange decl out = (out, None))
  ∧ (hasDefaults decl = true ↔
       ∃ Fields, decl_Type decl = StructType Fields
                 ∧ ∃ f, In f Fields ∧ field_DefaultValue f ≠ VNil).
Proof.
  split.
  - intros Hns. unfold generate. destruct (decl_Type decl); try done.
    by destruct (Hns Fields).
  - unfold hasDefaults. destruct (decl_Type decl) eqn:Ht;
      try (split; [done | by intros (? & ? & _)]).
    rewrite anyDefault_spec. split.
    + intros Hf. by exists Fields.
    + by intros (? & [= <-] & Hf).
Qed.

(** C7. For a struct declaration named [X], [generate] prints the doc
    comment "NewX creates a new X with default values.", then the line
    [func NewX() X {] and, one level deeper, the line [return X{]; when it
    returns no error the text ends with the two closing braces. A comment
    that fits one line is printed as that line behind [// ]. *)
Theorem generate_emits_named_constructor (X : string)
    (Fields : list structField) (out : Emitter) :
  (∃ rest,
     Emitter_String (generate mapRange (TypeDecl X (StructType Fields)) out).1 =
       Emitter_String (docComment X out) +:+ margin (docComment X out)
         +:+ "func New" +:+ X +:+ "() " +:+ X +:+ " {" +:+ nl
         +:+ gostring.tabs (indent out + 1) +:+ "return " +:+ X +:+ "{" +:+ nl
         +:+ rest
     ∧ ((generate mapRange (TypeDecl X (StructType Fields)) out).2 = None →
        ∃ body, rest = body +:+ closingText (indent out)))
  ∧ docComment X out =
      Commentf wrapComment
        ("New" +:+ X +:+ " creates a new " +:+ X +:+ " with default values.") out
  ∧ (∀ text, text ≠ "" →
       wrapComment text (Z.max (maxLineLength out - indent out) 0) = [text] →
       Emitter_String (Commentf wrapComment text out) =
         Emitter_String out +:+ margin out +:+ "// " +:+ text +:+ nl).
Proof.
  split_and!.
  - destruct (generateFields mapRange Fields (openConstructor X out))
      as [out1 [err|]] eqn:Hg.
    + destruct (generateFields_extends mapRange Fields (openConstructor X out))
        as [rest Hrest].
      rewrite Hg in Hrest. cbn [fst] in Hrest.
      exists rest. unfold generate. cbn [decl_Type decl_Name]. rewrite Hg.
      cbn [fst snd]. split; [|done].
      unfold Emitter_String. rewrite Hrest, sb_openConstructor.
      by rewrite <- !app_assoc.
    + destruct (generate_struct_ok mapRange X Fields out) as (out' & Hgen & Htxt).
      { by eapply generateFields_None_open. }
      rewrite Hgen. cbn [fst snd].
      exists (bodyText mapRange (MaxLineLength out) (indent out)
                (List.filter initialized Fields) +:+ closingText (indent out)).
      split; [|by eexists].
      rewrite Htxt. unfold Emitter_String. rewrite sb_openConstructor.
      by rewrite <- !app_assoc.
  - done.
  - intros text Hne Hwrap. rewrite Commentf_printAll.
    destruct (decide (text = "")); [done|]. rewrite Hwrap.
    unfold Emitter_String, printAll. cbn [foldl]. rewrite sb_Printlnf.
    by rewrite <- !app_assoc.
Qed.

Lemma filter_sublist {A} (p : A → bool) (l : list A) :
  sublist (List.filter p l) l.
Proof.
  induction l as [|a l IH]; cbn; [constructor|].
  destruct (p a); by constructor.
Qed.

Lemma formats_defaultStr n f :
  formats mapRange n f = true →
  formatDefaultValue mapRange (field_Type f) (field_DefaultValue f) n
    = Ok (defaultStr mapRange n f).
Proof.
  unfold formats, defaultStr. by destruct (formatDefaultValue _ _ _ _).
Qed.

Lemma In_initialized f Fields :
  In f (List.filter initialized Fields) ↔
  In f Fields ∧ field_DefaultValue f ≠ VNil ∧ field_Name f ≠ additionalProperties.
Proof. by rewrite filter_In, initialized_spec. Qed.

(** C8. When [generate] returns no error, the body of the constructor has
    one initializer line per field that has a non-nil default and is not
    the catch-all field, in the order of the struct's fields, and nothing
    else; a default on the catch-all field is left out. *)
Theorem constructor_body_is_defaulted_fields (X : string)
    (Fields : list structField) (out out' : Emitter) :
  generate mapRange (TypeDecl X (StructType Fields)) out = (out', None) →
  Emitter_String out' =
    Emitter_String (openConstructor X out)
      +:+ gostring.concat
            (map (λ f, gostring.tabs (indent out + 2)
                         +:+ field_Name f +:+ ": "
                         +:+ defaultStr mapRange (MaxLineLength out) f +:+ ","
                         +:+ nl)
                 (List.filter initialized Fields))
      +:+ closingText (indent out)
  ∧ Forall (λ f, formatDefaultValue mapRange (field_Type f) (field_DefaultValue f)
                   (MaxLineLength out)
                 = Ok (defaultStr mapRange (MaxLineLength out) f))
           (List.filter initialized Fields)
  ∧ (∀ f, In f (List.filter initialized Fields) ↔
          In f Fields ∧ field_DefaultValue f ≠ VNil
          ∧ field_Name f ≠ additionalProperties)
  ∧ sublist (List.filter initialized Fields) Fields.
Proof.
  intros Hgen. pose proof (generate_struct_None mapRange _ _ _ _ Hgen) as Hall.
  destruct (generate_struct_ok mapRange X Fields out Hall) as (out1 & Hgen1 & Htxt).
  assert (out1 = out') as -> by congruence.
  split_and!.
  - rewrite Htxt. unfold bodyText, initializer. do 3 f_equal.
    apply map_ext. intros f. by rewrite <- !app_assoc.
  - rewrite Forall_forall in Hall |- *. intros f Hf.
    by apply formats_defaultStr, Hall.
  - intros f. apply In_initialized.
  - apply filter_sublist.
Qed.

(** C1, as amended. When [generate] returns no error, the text contains,
    for every field with a non-nil default other than the catch-all field,
    the line that initializes the field to its formatted default; and
    every line of the body is such an initializer, so a field without a
    default and the catch-all field get none. *)
Theorem constructor_contains_each_default (X : string)
    (Fields : list structField) (out out' : Emitter) :
  generate mapRange (TypeDecl X (StructType Fields)) out = (out', None) →
  (∀ f, In f Fields → field_DefaultValue f ≠ VNil →
        field_Name f ≠ additionalProperties →
        ∃ s pre post,
          formatDefaultValue mapRange (field_Type f) (field_DefaultValue f)
                             (MaxLineLength out) = Ok s
          ∧ Emitter_String out' =
              pre +:+ (field_Name f +:+ ": " +:+ s +:+ ",") +:+ nl +:+ post
          ∧ gostring.contains (field_Name f +:+ ": " +:+ s +:+ ",")
                              (Emitter_String out') = true)
  ∧ (∃ lines,
       Emitter_String out' =
         Emitter_String (openConstructor X out)
           +:+ gostring.concat
                 (map (λ l, gostring.tabs (indent out + 2) +:+ l +:+ nl) lines)
           +:+ closingText (indent out)
       ∧ ∀ l, In l lines →
           ∃ f s, In f Fields ∧ field_DefaultValue f ≠ VNil
                  ∧ field_Name f ≠ additionalProperties
                  ∧ formatDefaultValue mapRange (field_Type f)
                      (field_DefaultValue f) (MaxLineLength out) = Ok s
                  ∧ l = field_Name f +:+ ": " +:+ s +:+ ","). 
Proof.
  intros Hgen. pose proof (generate_struct_None mapRange _ _ _ _ Hgen) as Hall.
  destruct (generate_struct_ok mapRange X Fields out Hall) as (out1 & Hgen1 & Htxt).
  assert (out1 = out') as -> by congruence.
  rewrite Forall_forall in Hall. split.
  - intros f Hin Hd Hn.
    assert (In f (List.filter initialized Fields)) as Hf by by apply In_initialized.
    exists (defaultStr mapRange (MaxLineLength out) f).
    destruct (in_split _ _ Hf) as (l1 & l2 & Heq).
    exists (Emitter_String (openConstructor X out)
              +:+ bodyText mapRange (MaxLineLength out) (indent out) l1
              +:+ gostring.tabs (indent out + 2)),
           (bodyText mapRange (MaxLineLength out) (indent out) l2
              +:+ closingText (indent out)).
    split; [by apply formats_defaultStr, Hall, list_elem_of_In|].
    assert (Emitter_String out' =
              (Emitter_String (openConstructor X out)
                 +:+ bodyText mapRange (MaxLineLength out) (indent out) l1
                 +:+ gostring.tabs (indent out + 2))
              +:+ (field_Name f +:+ ": "
                     +:+ defaultStr mapRange (MaxLineLength out) f +:+ ",")
              +:+ nl
              +:+ (bodyText mapRange (MaxLineLength out) (indent out) l2
                     +:+ closingText (indent out))) as Hsplit.
    { rewrite Htxt, Heq. unfold bodyText.
      rewrite map_app, concat_app. cbn [map]. rewrite concat_cons.
      unfold initializer. by rewrite <- !app_assoc. }
    split; [exact Hsplit|].
    rewrite Hsplit. apply contains_app.
  - exists (map (initializerOf mapRange (MaxLineLength out))
                (List.filter initialized Fields)).
    split.
    + rewrite Htxt. unfold bodyText. by rewrite map_map.
    + intros l (f & <- & Hf)%in_map_iff.
      pose proof (proj1 (In_initialized _ _) Hf) as (Hin & Hd & Hn).
      exists f, (defaultStr mapRange (MaxLineLength out) f).
      split_and!; [done..| |done].
      by apply formats_defaultStr, Hall, list_elem_of_In.
Qed.

End generate_claims.

(** ** [generate] on the example declarations *)

Section generate_examples.

#[local] Existing Instance reference.externals.

Lemma constructor_body_witness :
  example.run example.config = ((example.run example.config).1, None)
  ∧ Emitter_String (example.run example.config).1 =
      Emitter_String (openConstructor "Config" (NewEmitter 80))
        +:+ gostring.concat
              (map (λ f, gostring.tabs 2 +:+ field_Name f +:+ ": "
                           +:+ defaultStr reference.mapRange 80 f +:+ ","
                           +:+ nl)
                   (List.filter initialized example.config_fields))
        +:+ closingText 0.
Proof.
  assert (example.run example.config = ((example.run example.config).1, None))
    as H by (vm_compute; reflexivity).
  split; [exact H|].
  exact (proj1
    (constructor_body_is_defaulted_fields reference.mapRange _ _ _ _ H)).
Defined.

(** The fields of [example.config] that its constructor initializes. *)
Example config_initialized :
  map field_Name (List.filter initialized example.config_fields)
    = ["Name"; "Timeout"; "Tags"; "Inner"].
Proof. vm_compute. reflexivity. Qed.

(** The text that the reference instantiation yields for [example.config]. *)
Example config_text :
  Emitter_String (example.run example.config).1 =
    gostring.concat
      ["// NewConfig creates a new Config with default values."; nl;
       "func NewConfig() Config {"; nl;
       gostring.tabs 1; "return Config{"; nl;
       gostring.tabs 2; "Name: "; strconv.Quote "x"; ","; nl;
       gostring.tabs 2; "Timeout: func() time.Duration { d, _ := time.ParseDuration(";
         strconv.Quote "30s"; "); return d }(),"; nl;
       gostring.tabs 2; "Tags: []string{"; nl;
         strconv.Quote "a"; ","; nl;
         strconv.Quote "b"; ","; nl;
         "},"; nl;
       gostring.tabs 2; "Inner: Inner{"; nl;
         "Host: "; strconv.Quote "y"; ","; nl;
         "Port: 80,"; nl;
         "},"; nl;
       gostring.tabs 1; "}"; nl;
       "}"; nl].
Proof. vm_compute. reflexivity. Qed.

Lemma constructor_contains_witness :
  example.run example.config = ((example.run example.config).1, None)
  ∧ ∃ s pre post,
      formatDefaultValue reference.mapRange (PrimitiveType "string") (VString "x") 80
        = Ok s
      ∧ Emitter_String (example.run example.config).1 =
          pre +:+ ("Name" +:+ ": " +:+ s +:+ ",") +:+ nl +:+ post
      ∧ gostring.contains ("Name" +:+ ": " +:+ s +:+ ",")
                          (Emitter_String (example.run example.config).1) = true.
Proof.
  assert (example.run example.config = ((example.run example.config).1, None))
    as H by (vm_compute; reflexivity).
  split; [exact H|].
  apply (proj1 (constructor_contains_each_default reference.mapRange _ _ _ _ H)
           (StructField "Name" (PrimitiveType "string") (VString "x"))).
  - left. reflexivity.
  - discriminate.
  - discriminate.
Defined.

(** C1, as stated, fails on [example.open_map]: its catch-all field has a
    default that is not nil, [generate] returns no error, and the text does
    not mention the field. *)
Lemma catch_all_default_is_not_initialized :
  ∃ f, In f example.open_map_fields
       ∧ field_DefaultValue f ≠ VNil
       ∧ hasDefaults example.open_map = true
       ∧ (example.run example.open_map).2 = None
       ∧ Emitter_String (example.run example.open_map).1 =
           gostring.concat
             ["// NewOptions creates a new Options with default values."; nl;
              "func NewOptions() Options {"; nl;
              gostring.tabs 1; "return Options{"; nl;
              gostring.tabs 1; "}"; nl;
              "}"; nl]
       ∧ gostring.contains (field_Name f +:+ ":")
           (Emitter_String (example.run example.open_map).1) = false.
Proof.
  exists (StructField "AdditionalProperties"
            (MapType (PrimitiveType "string") EmptyInterfaceType) (VMap ∅)).
  split_and!.
  - right. left. reflexivity.
  - discriminate.
  - reflexivity.
  - vm_compute. reflexivity.
  - vm_compute. reflexivity.
  - vm_compute. reflexivity.
Qed.

End generate_examples.

(** ** [formatDefaultValue] *)

Section format_claims.

Context {DL : DurationLib} {E : Externals}.
Variable mapRange : gmap string value → list string.

Lemma tryFormatSlice_None defaultValue :
  tryFormatSlice defaultValue = None ↔ ∃ df, defaultValue = VSlice df.
Proof.
  unfold tryFormatSlice. destruct defaultValue; cbn;
    (split; [try done; by eexists | by intros [? ?]]).
Qed.

Lemma formatSliceValue_cases fieldType df maxLineLen :
  (∃ s, formatSliceValue fieldType (VSlice df) maxLineLen = Ok s)
  ∨ (∃ tmp err,
       Type_Generate fieldType (NewEmitter maxLineLen) = (tmp, Some err)
       ∧ formatSliceValue fieldType (VSlice df) maxLineLen
           = Err (ErrCannotDumpDefaultSlice err)).
Proof.
  unfold formatSliceValue.
  destruct (Type_Generate fieldType (NewEmitter maxLineLen)) as [tmp [err|]].
  - right. by exists tmp, err.
  - left. destruct (decide _); by eexists.
Qed.

(** C10. [tryFormatSlice] returns nil only for a [[]interface{}]; after
    it, the type assertion of [formatSliceValue] succeeds, so that function
    returns a text or the wrapped error of [Generate], and
    [formatDefaultValue] never returns [ErrInvalidDefaultValue]. *)
Theorem slice_assertion_cannot_fail (fieldType : type) (defaultValue : value)
    (maxLineLen : Z) :
  (tryFormatSlice defaultValue = None ↔ ∃ df, defaultValue = VSlice df)
  ∧ (tryFormatSlice defaultValue = None →
       (∃ s, formatSliceValue fieldType defaultValue maxLineLen = Ok s)
       ∨ (∃ tmp err,
            Type_Generate fieldType (NewEmitter maxLineLen) = (tmp, Some err)
            ∧ formatSliceValue fieldType defaultValue maxLineLen
                = Err (ErrCannotDumpDefaultSlice err)))
  ∧ formatDefaultValue mapRange fieldType defaultValue maxLineLen
      ≠ Err ErrInvalidDefaultValue.
Proof.
  split_and!.
  - apply tryFormatSlice_None.
  - intros [df ->]%tryFormatSlice_None. apply formatSliceValue_cases.
  - assert (∀ ft, match tryFormatSlice defaultValue with
                  | None => formatSliceValue ft defaultValue maxLineLen
                  | Some _ => Ok (strings_TrimSpace (litter_Sdump defaultValue))
                  end ≠ Err ErrInvalidDefaultValue) as Hrest.
    { intros ft. destruct (tryFormatSlice defaultValue) eqn:Ht; [done|].
      apply tryFormatSlice_None in Ht as [df ->].
      destruct (formatSliceValue_cases ft df maxLineLen)
        as [[s ->]|(? & ? & _ & ->)]; done. }
    unfold formatDefaultValue.
    destruct fieldType; try apply Hrest.
    + destruct defaultValue; try apply Hrest. done.
    + destruct defaultValue; try done.
      destruct (decide _); [done|]. by destruct (duration_Parse _).
Qed.

(** The duration branch, case by case. *)
Lemma formatDefaultValue_duration defaultValue maxLineLen :
  formatDefaultValue mapRange DurationType defaultValue maxLineLen =
    match defaultValue with
    | VString iso =>
        if decide (iso = "") then Err ErrDurationIsEmpty
        else match duration_Parse iso with
             | None => Err ErrCannotConvertISO8601ToGoFormat
             | Some d => Ok (durationExpr (gotime.Duration_String (ToTimeDuration d)))
             end
    | _ => Err (ErrDefaultDurationIsNotAString (typeName defaultValue))
    end.
Proof. by destruct defaultValue. Qed.

(** C4. For a duration field, [formatDefaultValue] returns an error
    exactly when the default is not a string, is the empty string, or is
    not accepted by the ISO 8601 parser; then [generate] returns an error
    for a struct that initializes such a field. When it succeeds, the text
    is the duration expression of a parsed duration. *)
Theorem duration_default_errors (defaultValue : value) (maxLineLen : Z) :
  (isOk (formatDefaultValue mapRange DurationType defaultValue maxLineLen) = false ↔
     (∀ s, defaultValue ≠ VString s)
     ∨ defaultValue = VString ""
     ∨ (∃ s, defaultValue = VString s ∧ duration_Parse s = None))
  ∧ ((∀ s, defaultValue ≠ VString s) →
       formatDefaultValue mapRange DurationType defaultValue maxLineLen
         = Err (ErrDefaultDurationIsNotAString (typeName defaultValue)))
  ∧ (defaultValue = VString "" →
       formatDefaultValue mapRange DurationType defaultValue maxLineLen
         = Err ErrDurationIsEmpty)
  ∧ (∀ s, defaultValue = VString s → s ≠ "" → duration_Parse s = None →
       formatDefaultValue mapRange DurationType defaultValue maxLineLen
         = Err ErrCannotConvertISO8601ToGoFormat)
  ∧ (∀ text,
       formatDefaultValue mapRange DurationType defaultValue maxLineLen = Ok text →
       ∃ s d, defaultValue = VString s ∧ s ≠ "" ∧ duration_Parse s = Some d
              ∧ text = durationExpr (gotime.Duration_String (ToTimeDuration d)))
  ∧ (∀ X Fields out f,
       In f Fields → field_Type f = DurationType →
       field_DefaultValue f = defaultValue → defaultValue ≠ VNil →
       field_Name f ≠ additionalProperties →
       isOk (formatDefaultValue mapRange DurationType defaultValue
               (MaxLineLength out)) = false →
       ∃ out' g err,
         generate mapRange (TypeDecl X (StructType Fields)) out
           = (out', Some (ErrCannotFormatField (field_Name g) err))).
Proof.
  split_and!.
  - rewrite formatDefaultValue_duration. destruct defaultValue;
      try (split; [intros _; left; by intros ? | done]).
    destruct (decide (s = "")) as [->|Hs].
    { split; [intros _; right; by left | done]. }
    destruct (duration_Parse s) eqn:Hp; cbn [isOk].
    + split; [done|]. intros [Hns|[[= ->]|(s' & [= <-] & Hp')]];
        [by destruct (Hns s) | done | congruence].
    + split; [|done]. intros _. right. right. by exists s.
  - intros Hns. rewrite formatDefaultValue_duration.
    destruct defaultValue; try done. by destruct (Hns s).
  - by intros ->.
  - intros s -> Hs Hp. rewrite formatDefaultValue_duration.
    destruct (decide _); [done|]. by rewrite Hp.
  - intros text. rewrite formatDefaultValue_duration.
    destruct defaultValue; try done.
    destruct (decide (s = "")); [done|].
    destruct (duration_Parse s) eqn:Hp; [|done].
    intros [= <-]. by exists s, d.
  - intros X Fields out f Hin Hty Hdv Hnn Hname Hfail.
    destruct (generate_struct_err mapRange X Fields out) as (out' & g & err & _ & _ & Hg).
    { apply Exists_exists. exists f. split.
      - apply list_elem_of_In. apply In_initialized.
        split_and!; [done|congruence|done].
      - unfold formats. by rewrite Hty, Hdv. }
    by exists out', g, err.
Qed.

(** C5. For a field type other than a duration (a named type included)
    whose rendering [Generate] succeeds, and a default that is a
    [[]interface{}], [formatDefaultValue] returns the rendered type followed
    by [{}] when the slice is empty, and otherwise by an opening brace, one
    line per element in order, each the dump of the element followed by a
    comma, and a closing brace. *)
Theorem slice_default_is_composite_literal (fieldType : type)
    (df : list value) (maxLineLen : Z) (tmp : Emitter) :
  fieldType ≠ DurationType →
  Type_Generate fieldType (NewEmitter maxLineLen) = (tmp, None) →
  formatDefaultValue mapRange fieldType (VSlice df) maxLineLen =
    Ok (if decide (df = []) then Emitter_String tmp +:+ "{}"
        else Emitter_String tmp +:+ margin tmp +:+ "{" +:+ nl
               +:+ gostring.concat
                     (map (λ v, gostring.tabs (indent tmp)
                                  +:+ litter_Sdump v +:+ "," +:+ nl) df)
               +:+ gostring.tabs (indent tmp) +:+ "}").
Proof.
  intros Hnd Hgen.
  assert (formatDefaultValue mapRange fieldType (VSlice df) maxLineLen
          = formatSliceValue fieldType (VSlice df) maxLineLen) as ->.
  { unfold formatDefaultValue. by destruct fieldType. }
  unfold formatSliceValue. rewrite Hgen.
  destruct df as [|v df].
  { by rewrite !decide_True by done. }
  rewrite !decide_False by done. f_equal.
  change (foldl ?g ?e ?l) with (printAll (λ v, litter_Sdump v +:+ ",") l e).
  set (l := v :: df). unfold Emitter_String.
  rewrite sb_Printf, margin_at_start by (by apply start_printAll).
  rewrite indent_printAll, sb_printAll by done.
  rewrite indent_Printlnf, sb_Printlnf.
  rewrite <- !app_assoc. do 5 f_equal.
  f_equal. apply map_ext. intros a. by rewrite <- !app_assoc.
Qed.

Lemma foldl_app_concat {A} (g : A → string) (l : list A) : ∀ s,
  foldl (λ acc a, acc +:+ g a) s l = s +:+ gostring.concat (map g l).
Proof.
  induction l as [|a l IH]; intros s; cbn [foldl map].
  - by rewrite app_nil_r.
  - by rewrite IH, concat_cons, app_assoc.
Qed.

Lemma namedFieldsOf_concat dvm :
  namedFieldsOf mapRange dvm =
    gostring.concat (map (namedField dvm) (sortedKeys mapRange dvm)).
Proof.
  exact (foldl_app_concat (namedField dvm) (sortedKeys mapRange dvm) "").
Qed.

Lemma namedFieldsOf_nil dvm :
  namedFieldsOf mapRange dvm = "" ↔ sortedKeys mapRange dvm = [].
Proof.
  rewrite namedFieldsOf_concat. destruct (sortedKeys mapRange dvm) as [|k ks].
  - done.
  - cbn [map]. rewrite concat_cons. unfold namedField at 1, nl.
    rewrite app_cons. split; done.
Qed.

(** The named-type branch: the literal that is returned. *)
Lemma formatDefaultValue_named (Decl : typeDecl) (dvm : gmap string value)
    (maxLineLen : Z) :
  formatDefaultValue mapRange (NamedType Decl) (VMap dvm) maxLineLen =
    Ok (GetName Decl +:+ "{"
          +:+ gostring.concat (map (namedField dvm) (sortedKeys mapRange dvm))
          +:+ (if decide (sortedKeys mapRange dvm = []) then "" else nl)
          +:+ "}").
Proof.
  unfold formatDefaultValue. f_equal. f_equal. f_equal.
  destruct (decide (namedFieldsOf mapRange dvm = "")) as [Hn|Hn].
  - rewrite decide_True by by apply namedFieldsOf_nil.
    rewrite namedFieldsOf_concat. by rewrite app_assoc, app_nil_r.
  - rewrite decide_False by (by rewrite <- namedFieldsOf_nil).
    rewrite namedFieldsOf_concat. by rewrite <- !app_assoc.
Qed.

(** C2, as amended. For a field of a named type whose default is a JSON
    object, [formatDefaultValue] returns a composite literal of the nested
    type: its name, and in braces one line per key of the object, in sorted
    key order, of the key with its first letter in upper case and the dump
    of the value. It does not call the constructor of the nested type: the
    literal depends on the nested declaration through its name only. *)
Theorem named_default_is_composite_literal (Decl : typeDecl)
    (dvm : gmap string value) (maxLineLen : Z) :
  formatDefaultValue mapRange (NamedType Decl) (VMap dvm) maxLineLen =
    Ok (GetName Decl +:+ "{"
          +:+ gostring.concat
                (map (λ k, nl +:+ upperFirst k +:+ ": "
                             +:+ litter_Sdump (mapIndex dvm k) +:+ ",")
                     (sortedKeys mapRange dvm))
          +:+ (if decide (sortedKeys mapRange dvm = []) then "" else nl)
          +:+ "}")
  ∧ (∀ body,
       formatDefaultValue mapRange (NamedType (TypeDecl (decl_Name Decl) body))
                          (VMap dvm) maxLineLen
         = formatDefaultValue mapRange (NamedType Decl) (VMap dvm) maxLineLen).
Proof.
  split; [apply formatDefaultValue_named|].
  intros body. by rewrite !formatDefaultValue_named.
Qed.

End format_claims.

(** ** Independence of the order in which maps are ranged over *)

Section order_independence.

Context {DL : DurationLib} {E : Externals}.

Lemma sortedKeys_canonical (range : gmap string value → list string)
    (m : gmap string value) :
  range m ≡ₚ (map_to_list m).*1 →
  sortedKeys range m = merge_sort String.le (map_to_list m).*1.
Proof.
  intros Hperm. unfold sortedKeys.
  apply (StronglySorted_unique String.le).
  - apply StronglySorted_merge_sort; apply _.
  - apply StronglySorted_merge_sort; apply _.
  - by rewrite !merge_sort_Permutation.
Qed.

Lemma formatDefaultValue_ext (range1 range2 : gmap string value → list string)
    fieldType defaultValue maxLineLen :
  (∀ m, sortedKeys range1 m = sortedKeys range2 m) →
  formatDefaultValue range1 fieldType defaultValue maxLineLen
    = formatDefaultValue range2 fieldType defaultValue maxLineLen.
Proof.
  intros Hkeys. unfold formatDefaultValue.
  destruct fieldType; try done. destruct defaultValue; try done.
  unfold namedFieldsOf. by rewrite Hkeys.
Qed.

Lemma generateFields_ext (range1 range2 : gmap string value → list string)
    Fields : ∀ out,
  (∀ m, sortedKeys range1 m = sortedKeys range2 m) →
  generateFields range1 Fields out = generateFields range2 Fields out.
Proof.
  induction Fields as [|f Fields IH]; intros out Hkeys; [done|].
  cbn [generateFields]. rewrite (formatDefaultValue_ext range1 range2) by done.
  destruct (negb _); [|by apply IH].
  destruct (decide _); [by apply IH|].
  destruct (formatDefaultValue _ _ _ _); [by apply IH|done].
Qed.

(** C6. Two runs that range over maps in different orders return the same
    text from [formatDefaultValue] and the same output from [generate]; for
    a named type with a JSON object as default, the initializers follow the
    keys of the object in sorted order. *)
Theorem generation_ignores_map_order
    (range1 range2 : gmap string value → list string) :
  (∀ m, range1 m ≡ₚ (map_to_list m).*1) →
  (∀ m, range2 m ≡ₚ (map_to_list m).*1) →
  (∀ fieldType defaultValue maxLineLen,
     formatDefaultValue range1 fieldType defaultValue maxLineLen
       = formatDefaultValue range2 fieldType defaultValue maxLineLen)
  ∧ (∀ decl out, generate range1 decl out = generate range2 decl out)
  ∧ (∀ Decl dvm maxLineLen,
       ∃ keys,
         StronglySorted String.le keys
         ∧ keys ≡ₚ (map_to_list dvm).*1
         ∧ formatDefaultValue range1 (NamedType Decl) (VMap dvm) maxLineLen =
             Ok (GetName Decl +:+ "{"
                   +:+ gostring.concat
                         (map (λ k, nl +:+ upperFirst k +:+ ": "
                                      +:+ litter_Sdump (mapIndex dvm k) +:+ ",")
                              keys)
                   +:+ (if decide (keys = []) then "" else nl)
                   +:+ "}")).
Proof.
  intros H1 H2.
  assert (∀ m, sortedKeys range1 m = sortedKeys range2 m) as Hkeys.
  { intros m. by rewrite !sortedKeys_canonical. }
  split_and!.
  - intros. by apply formatDefaultValue_ext.
  - intros decl out. unfold generate. destruct (decl_Type decl); try done.
    by rewrite (generateFields_ext range1 range2).
  - intros Decl dvm maxLineLen. exists (sortedKeys range1 dvm). split_and!.
    + apply StronglySorted_merge_sort; apply _.
    + unfold sortedKeys. by rewrite merge_sort_Permutation.
    + apply formatDefaultValue_named.
Qed.

End order_independence.

(** ** The duration default of the specification's scenario *)

Section duration_scenario.

Context {E : Externals}.
Variable mapRange : gmap string value → list string.

(** C3. The default ["PT30S"] of a duration field formats without error
    whenever the ISO 8601 package reads it as 30 seconds: Go prints that
    duration as ["30s"], and the expression returned, which parses that
    text again when the constructor runs, has the value 30 seconds. The
    package of the source does read ["PT30S"] as 30 seconds. *)
Theorem duration_default_PT30S (maxLineLen : Z) :
  (∀ (DL : DurationLib) d,
     duration_Parse "PT30S" = Some d →
     ToTimeDuration d = 30 * gotime.Second →
     formatDefaultValue mapRange DurationType (VString "PT30S") maxLineLen
       = Ok (durationExpr "30s"))
  ∧ (ToTimeDuration <$> duration_Parse (DurationLib := sosodev_lib) "PT30S")
      = Some (30 * gotime.Second)
  ∧ formatDefaultValue (DL := sosodev_lib) mapRange DurationType (VString "PT30S")
                       maxLineLen
      = Ok (durationExpr "30s")
  ∧ goeval.evalDurationExpr (durationExpr "30s") = Some (30 * gotime.Second)
  ∧ gotime.Duration_String (30 * gotime.Second) = "30s"
  ∧ gotime.ParseDuration "30s" = gotime.Value (30 * gotime.Second).
Proof.
  split_and!.
  - intros DL d Hparse Hd. rewrite formatDefaultValue_duration.
    rewrite decide_False by done. by rewrite Hparse, Hd.
  - by vm_compute.
  - rewrite formatDefaultValue_duration. by vm_compute.
  - by vm_compute.
  - by vm_compute.
  - by vm_compute.
Qed.

End duration_scenario.

(** ** [formatDefaultValue] on examples *)

Section format_examples.

#[local] Existing Instance reference.externals.

Lemma slice_default_witness :
  ArrayType (PrimitiveType "string") ≠ DurationType
  ∧ Type_Generate (ArrayType (PrimitiveType "string")) (NewEmitter 80)
      = (Printf "[]string" (NewEmitter 80), None)
  ∧ formatDefaultValue reference.mapRange (ArrayType (PrimitiveType "string"))
                       (VSlice [VString "a"; VString "b"]) 80
      = Ok (gostring.concat
              ["[]string{"; nl;
               strconv.Quote "a"; ","; nl;
               strconv.Quote "b"; ","; nl;
               "}"]).
Proof.
  assert (ArrayType (PrimitiveType "string") ≠ DurationType) as H1 by discriminate.
  assert (Type_Generate (ArrayType (PrimitiveType "string")) (NewEmitter 80)
          = (Printf "[]string" (NewEmitter 80), None)) as H2 by reflexivity.
  split_and!; [exact H1 | exact H2 |].
  exact (slice_default_is_composite_literal reference.mapRange
           (ArrayType (PrimitiveType "string")) [VString "a"; VString "b"] 80
           (Printf "[]string" (NewEmitter 80)) H1 H2).
Defined.

(** An empty slice default. *)
Example empty_slice_default :
  formatDefaultValue reference.mapRange (ArrayType (PrimitiveType "int"))
                     (VSlice []) 80
    = Ok "[]int{}".
Proof. vm_compute. reflexivity. Qed.

(** C2, as stated, fails: the default [{"port": 80}] of a field of type
    [Inner] becomes a literal with that one entry. No call of [NewInner]
    is emitted, although [Inner] has a default of its own (for [Host]),
    which the literal does not carry. *)
Lemma named_default_is_not_a_constructor_call :
  hasDefaults example.inner = true
  ∧ formatDefaultValue reference.mapRange (NamedType example.inner)
                       (VMap {["port" := VInt 80]}) 80
      = Ok (gostring.concat ["Inner{"; nl; "Port: 80,"; nl; "}"])
  ∧ gostring.contains "NewInner"
      (gostring.concat ["Inner{"; nl; "Port: 80,"; nl; "}"]) = false
  ∧ gostring.contains "Host"
      (gostring.concat ["Inner{"; nl; "Port: 80,"; nl; "}"]) = false.
Proof. split_and!; vm_compute; reflexivity. Qed.

Lemma generation_ignores_map_order_witness :
  (∀ m, reference.mapRange m ≡ₚ (map_to_list m).*1)
  ∧ (∀ m, reverse (reference.mapRange m) ≡ₚ (map_to_list m).*1)
  ∧ reference.mapRange (<["port" := VInt 80]> (<["host" := VString "y"]> ∅))
      ≠ reverse (reference.mapRange
                   (<["port" := VInt 80]> (<["host" := VString "y"]> ∅)))
  ∧ formatDefaultValue reference.mapRange (NamedType example.inner)
                       (VMap (<["port" := VInt 80]> (<["host" := VString "y"]> ∅))) 80
      = formatDefaultValue (λ m, reverse (reference.mapRange m))
                           (NamedType example.inner)
                           (VMap (<["port" := VInt 80]> (<["host" := VString "y"]> ∅))) 80.
Proof.
  assert (∀ m, reference.mapRange m ≡ₚ (map_to_list m).*1) as H1
    by (intros m; reflexivity).
  assert (∀ m, reverse (reference.mapRange m) ≡ₚ (map_to_list m).*1) as H2
    by (intros m; apply reverse_Permutation).
  split_and!; [exact H1 | exact H2 | vm_compute; discriminate |].
  exact (proj1 (generation_ignores_map_order
                  reference.mapRange (λ m, reverse (reference.mapRange m)) H1 H2)
           _ _ _).
Defined.

(** A slice that is not a [[]interface{}] is the one value on which
    [tryFormatSlice] returns [ErrInvalidDefaultValue]; [formatDefaultValue]
    then dumps the value. *)
Example typed_slice_is_dumped :
  tryFormatSlice (VStringSlice []) = Some ErrInvalidDefaultValue
  ∧ tryFormatSlice (VString "a") = Some ErrCannotFindSlideToDump
  ∧ tryFormatSlice VNil = Some ErrCannotFindSlideToDump
  ∧ formatDefaultValue reference.mapRange (ArrayType (PrimitiveType "string"))
                       (VStringSlice []) 80
      = Ok "[]string{}".
Proof. split_and!; vm_compute; reflexivity. Qed.

(** A duration default that is not ISO 8601 stops [generate]. *)
Example bad_timeout_fails :
  (example.run example.bad_timeout).2
    = Some (ErrCannotFormatField "Timeout" ErrCannotConvertISO8601ToGoFormat).
Proof. vm_compute. reflexivity. Qed.

(** A declaration that is not a struct leaves the emitter untouched. *)
Example alias_is_skipped :
  example.run example.alias = (NewEmitter 80, None)
  ∧ hasDefaults example.alias = false
  ∧ hasDefaults example.config = true.
Proof. split_and!; reflexivity. Qed.

End format_examples.

(** * Further properties *)

(** ** [generate]: the state it leaves behind *)

Section generate_state.

Context {DL : DurationLib} {E : Externals}.
Variable mapRange : gmap string value → list string.

Lemma Emitter_eq (e1 e2 : Emitter) :
  sb e1 = sb e2 → maxLineLength e1 = maxLineLength e2 →
  start e1 = start e2 → indent e1 = indent e2 → e1 = e2.
Proof. destruct e1, e2. cbn. by intros -> -> -> ->. Qed.

Lemma start_Commentf wrap text e :
  start e = true → start (Commentf wrap text e) = true.
Proof.
  intros He. rewrite Commentf_printAll.
  destruct (decide _); [done | by apply start_printAll].
Qed.

Lemma sb_Commentf wrap text e :
  start e = true →
  sb (Commentf wrap text e) =
    sb e +:+ (if decide (text = "") then ""
              else gostring.concat
                     (map (λ line, gostring.tabs (indent e) +:+ "// " +:+ line +:+ nl)
                          (wrap text (Z.max (maxLineLength e - indent e) 0)))).
Proof.
  intros He. rewrite Commentf_printAll.
  destruct (decide _); [by rewrite app_nil_r|].
  rewrite sb_printAll by done. reflexivity.
Qed.

Lemma start_closeConstructor e : start (closeConstructor e) = true.
Proof. reflexivity. Qed.

Lemma indent_closeConstructor e : indent (closeConstructor e) = indent e - 2.
Proof. unfold closeConstructor. autorewrite with emitter. lia. Qed.

Lemma maxLineLength_closeConstructor e :
  maxLineLength (closeConstructor e) = maxLineLength e.
Proof. unfold closeConstructor. by autorewrite with emitter. Qed.

(** The text of [openConstructor] from the start of a line. *)
Lemma sb_openConstructor_start X out :
  start out = true →
  sb (openConstructor X out) =
    sb out
      +:+ commentText (indent out) (Z.max (maxLineLength out - indent out) 0)
            ("New" +:+ X +:+ " creates a new " +:+ X +:+ " with default values.")
      +:+ gostring.tabs (indent out) +:+ "func New" +:+ X +:+ "() " +:+ X +:+ " {" +:+ nl
      +:+ gostring.tabs (indent out + 1) +:+ "return " +:+ X +:+ "{" +:+ nl.
Proof.
  intros Hs. rewrite sb_openConstructor. unfold docComment.
  rewrite sb_Commentf by done.
  rewrite margin_at_start by (by apply start_Commentf).
  rewrite indent_Commentf. unfold commentText.
  by rewrite <- !app_assoc.
Qed.

(** The emitter after a successful [generate] from the start of a line. *)
Lemma generate_final_state (X : string) (Fields : list structField)
    (out out' : Emitter) :
  start out = true →
  generate mapRange (TypeDecl X (StructType Fields)) out = (out', None) →
  out' = mkEmitter (sb out +:+ constructorText mapRange X Fields (indent out)
                                               (maxLineLength out))
                   (maxLineLength out) true (indent out).
Proof.
  intros Hs Hgen.
  pose proof (generate_struct_None mapRange _ _ _ _ Hgen) as Hall.
  destruct (generate_struct_ok mapRange X Fields out Hall) as (out1 & Hgen1 & Htxt).
  assert (out1 = out') as -> by congruence. clear Hgen1.
  unfold generate in Hgen. cbn [decl_Type decl_Name] in Hgen.
  rewrite generateFields_ok in Hgen; last first.
  { unfold MaxLineLength in *. by rewrite maxLineLength_openConstructor. }
  injection Hgen as <-.
  apply Emitter_eq; cbn [sb maxLineLength start indent].
  - unfold Emitter_String in Htxt. rewrite Htxt.
    rewrite sb_openConstructor_start by done.
    unfold constructorText, MaxLineLength. by rewrite <- !app_assoc.
  - rewrite maxLineLength_closeConstructor, maxLineLength_printAll.
    apply maxLineLength_openConstructor.
  - done.
  - rewrite indent_closeConstructor, indent_printAll, indent_openConstructor. lia.
Qed.

(** X1. When [generate] succeeds from the start of a line, the emitter ends at
    the start of a line with the indentation and the line length it had,
    and its text has grown by the text of the constructor, which depends
    on the emitter through its indentation and line length only. *)
Theorem generate_success_state (X : string) (Fields : list structField)
    (out out' : Emitter) :
  start out = true →
  generate mapRange (TypeDecl X (StructType Fields)) out = (out', None) →
  out' = mkEmitter (sb out +:+ constructorText mapRange X Fields (indent out)
                                               (maxLineLength out))
                   (maxLineLength out) true (indent out).
Proof. apply generate_final_state. Qed.

(** X2. Constructors generated one after the other: the text is the text
    before, followed by the text of the first and the text of the second,
    each as it would be printed alone. *)
Theorem generate_twice (X1 X2 : string) (Fields1 Fields2 : list structField)
    (out out1 out2 : Emitter) :
  start out = true →
  generate mapRange (TypeDecl X1 (StructType Fields1)) out = (out1, None) →
  generate mapRange (TypeDecl X2 (StructType Fields2)) out1 = (out2, None) →
  Emitter_String out2 =
    Emitter_String out
      +:+ constructorText mapRange X1 Fields1 (indent out) (maxLineLength out)
      +:+ constructorText mapRange X2 Fields2 (indent out) (maxLineLength out)
  ∧ generate mapRange (TypeDecl X2 (StructType Fields2)) out
      = (mkEmitter (sb out +:+ constructorText mapRange X2 Fields2 (indent out)
                                               (maxLineLength out))
                   (maxLineLength out) true (indent out), None).
Proof.
  intros Hs H1 H2.
  pose proof (generate_final_state _ _ _ _ Hs H1) as ->.
  pose proof H2 as Hgen2.
  apply generate_final_state in H2 as ->; [|done].
  cbn [sb maxLineLength indent Emitter_String]. split.
  - by rewrite <- !app_assoc.
  - apply generate_struct_None in Hgen2 as Hall.
    cbn [MaxLineLength maxLineLength] in Hall.
    destruct (generate_struct_ok mapRange X2 Fields2 out Hall) as (o & Hgen & _).
    rewrite Hgen. f_equal. by apply generate_final_state.
Qed.

End generate_state.

(** ** [generate]: failure, and the fields that do not matter *)

Section generate_more.

Context {DL : DurationLib} {E : Externals}.
Variable mapRange : gmap string value → list string.

Lemma generateFields_app l1 l2 : ∀ out,
  generateFields mapRange (l1 ++ l2) out =
    match generateFields mapRange l1 out with
    | (out1, None) => generateFields mapRange l2 out1
    | failed => failed
    end.
Proof.
  induction l1 as [|f l1 IH]; intros out; [done|].
  cbn [app generateFields].
  destruct (negb _); [|apply IH].
  destruct (decide _); [apply IH|].
  destruct (formatDefaultValue _ _ _ _); [apply IH|done].
Qed.

Lemma maxLineLength_printAll_M {A} (g : A → string) l e :
  MaxLineLength (printAll g l e) = MaxLineLength e.
Proof. apply maxLineLength_printAll. Qed.

(** X3. [generate] stops at the first field it prints whose default does not
    format: it returns that field's error under the field's name, and the
    emitter holds the opening lines and the initializers of the fields
    before it, two indentation levels deeper than at the call, without the
    closing braces. *)
Theorem generate_stops_at_first_failure (X : string)
    (before after : list structField) (f : structField) (err : error)
    (out : Emitter) :
  Forall (λ g, formats mapRange (MaxLineLength out) g = true)
         (List.filter initialized before) →
  field_DefaultValue f ≠ VNil →
  field_Name f ≠ additionalProperties →
  formatDefaultValue mapRange (field_Type f) (field_DefaultValue f)
                     (MaxLineLength out) = Err err →
  ∃ out',
    generate mapRange (TypeDecl X (StructType (before ++ f :: after))) out
      = (out', Some (ErrCannotFormatField (field_Name f) err))
    ∧ Emitter_String out' =
        Emitter_String (openConstructor X out)
          +:+ bodyText mapRange (MaxLineLength out) (indent out)
                (List.filter initialized before)
    ∧ indent out' = indent out + 2
    ∧ start out' = true.
Proof.
  intros Hall Hd Hn Hf.
  assert (MaxLineLength (openConstructor X out) = MaxLineLength out) as Hm
    by apply maxLineLength_openConstructor.
  assert (isNil (field_DefaultValue f) = false) as Hnil
    by (by destruct (field_DefaultValue f)).
  eexists. unfold generate. cbn [decl_Type decl_Name].
  rewrite generateFields_app, generateFields_ok by by rewrite Hm.
  cbn [generateFields]. rewrite Hnil. cbn [negb].
  rewrite decide_False by done.
  rewrite maxLineLength_printAll_M, !Hm, Hf.
  split_and!; [done| | |].
  - unfold Emitter_String. rewrite sb_printAll by done.
    by rewrite indent_openConstructor.
  - rewrite indent_printAll. apply indent_openConstructor.
  - by apply start_printAll.
Qed.

Lemma hasDefaults_false_no_initialized X Fields :
  hasDefaults (TypeDecl X (StructType Fields)) = false →
  List.filter initialized Fields = [].
Proof.
  cbn [hasDefaults decl_Type]. induction Fields as [|f Fields IH]; [done|].
  cbn [anyDefault List.filter]. unfold initialized at 1.
  destruct (isNil (field_DefaultValue f)); [|done]. cbn [negb andb]. exact IH.
Qed.

(** X5. A struct without a field to initialize still gets a constructor:
    [generate] does not ask [hasDefaults], never fails on such a struct, and
    prints the opening and the closing lines around an empty literal. No
    field is initialized when [hasDefaults] is false, and also when the
    only defaults sit on the catch-all field. *)
Theorem generate_without_defaults (X : string) (Fields : list structField)
    (out : Emitter) :
  (hasDefaults (TypeDecl X (StructType Fields)) = false →
     List.filter initialized Fields = [])
  ∧ (List.filter initialized Fields = [] →
       generate mapRange (TypeDecl X (StructType Fields)) out
         = (closeConstructor (openConstructor X out), None)
       ∧ Emitter_String (closeConstructor (openConstructor X out)) =
           Emitter_String (openConstructor X out) +:+ closingText (indent out)).
Proof.
  split; [apply hasDefaults_false_no_initialized|].
  intros Hnone. split.
  - unfold generate. cbn [decl_Type decl_Name].
    rewrite generateFields_ok by (rewrite Hnone; constructor).
    by rewrite Hnone.
  - unfold Emitter_String. rewrite sb_closeConstructor by done.
    rewrite indent_openConstructor. do 2 f_equal. lia.
Qed.

Lemma filter_initialized_idemp (Fields : list structField) :
  List.filter initialized (List.filter initialized Fields)
    = List.filter initialized Fields.
Proof.
  induction Fields as [|f Fields IH]; [done|]. cbn [List.filter].
  destruct (initialized f) eqn:Hf; [|done].
  cbn [List.filter]. by rewrite Hf, IH.
Qed.

Lemma generateFields_filter Fields : ∀ out,
  generateFields mapRange (List.filter initialized Fields) out
    = generateFields mapRange Fields out.
Proof.
  induction Fields as [|f Fields IH]; intros out; [done|].
  cbn [List.filter generateFields]. unfold initialized at 1.
  destruct (isNil (field_DefaultValue f)) eqn:Hd; cbn [negb andb]; [apply IH|].
  destruct (decide (field_Name f = additionalProperties)) as [Hn|Hn].
  - rewrite bool_decide_eq_true_2 by done. cbn [negb]. apply IH.
  - rewrite bool_decide_eq_false_2 by done. cbn [negb generateFields].
    rewrite Hd. cbn [negb]. rewrite decide_False by done.
    destruct (formatDefaultValue _ _ _ _); [apply IH|done].
Qed.

(** X6. The fields without a default and the catch-all field have no effect on
    [generate], whether it succeeds or fails: dropping them from the struct
    gives the same emitter and the same error. *)
Theorem generate_ignores_undefaulted_fields (X : string)
    (Fields : list structField) (out : Emitter) :
  generate mapRange (TypeDecl X (StructType (List.filter initialized Fields))) out
    = generate mapRange (TypeDecl X (StructType Fields)) out.
Proof.
  unfold generate. cbn [decl_Type decl_Name]. by rewrite generateFields_filter.
Qed.

(** X4. [generate] fails on a struct exactly when one of the fields it prints
    has a default that does not format, and every error it returns is the
    error of such a field, wrapped with the field's name. *)
Theorem generate_fails_iff (X : string) (Fields : list structField)
    (out : Emitter) :
  ((generate mapRange (TypeDecl X (StructType Fields)) out).2 ≠ None ↔
     ∃ f, In f Fields ∧ field_DefaultValue f ≠ VNil
          ∧ field_Name f ≠ additionalProperties
          ∧ isOk (formatDefaultValue mapRange (field_Type f) (field_DefaultValue f)
                    (MaxLineLength out)) = false)
  ∧ (∀ e, (generate mapRange (TypeDecl X (StructType Fields)) out).2 = Some e →
       ∃ f err, In f Fields ∧ field_DefaultValue f ≠ VNil
                ∧ field_Name f ≠ additionalProperties
                ∧ formatDefaultValue mapRange (field_Type f) (field_DefaultValue f)
                    (MaxLineLength out) = Err err
                ∧ e = ErrCannotFormatField (field_Name f) err).
Proof.
  assert (Forall (λ f, formats mapRange (MaxLineLength out) f = true)
                 (List.filter initialized Fields)
          ∨ Exists (λ f, formats mapRange (MaxLineLength out) f = false)
                   (List.filter initialized Fields)) as [Hall|Hex].
  { induction (List.filter initialized Fields) as [|f l IH]; [left; constructor|].
    destruct (formats mapRange (MaxLineLength out) f) eqn:Hf.
    - destruct IH as [IH|IH]; [left|right]; by constructor.
    - left + right; by constructor. }
  - destruct (generate_struct_ok mapRange X Fields out Hall) as (out' & -> & _).
    cbn [snd]. split; [|done]. split; [done|].
    intros (f & Hin & Hd & Hn & Hf). exfalso.
    rewrite Forall_forall in Hall.
    specialize (Hall f). unfold formats in Hall. rewrite Hf in Hall.
    assert (false = true) by (apply Hall, list_elem_of_In, In_initialized; done).
    done.
  - destruct (generate_struct_err mapRange X Fields out Hex)
      as (out' & f & err & Hin & Hf & ->).
    apply In_initialized in Hin as (Hin & Hd & Hn). cbn [snd]. split.
    + split; [|done]. intros _. exists f. by rewrite Hf.
    + intros e [= <-]. by exists f, err.
Qed.

End generate_more.

(** ** [formatDefaultValue]: errors and the fallback *)

Section format_more.

Context {DL : DurationLib} {E : Externals}.
Variable mapRange : gmap string value → list string.

(** X7. Outside the duration branch, [formatDefaultValue] fails in one case
    only: the default is a [[]interface{}] and [Generate] fails on the
    field type; the error is that of [Generate], wrapped in
    [ErrCannotDumpDefaultSlice]. *)
Theorem formatDefaultValue_fails_only_on_rendering (fieldType : type)
    (defaultValue : value) (maxLineLen : Z) (e : error) :
  fieldType ≠ DurationType →
  formatDefaultValue mapRange fieldType defaultValue maxLineLen = Err e ↔
  ∃ df tmp err,
    defaultValue = VSlice df
    ∧ Type_Generate fieldType (NewEmitter maxLineLen) = (tmp, Some err)
    ∧ e = ErrCannotDumpDefaultSlice err.
Proof.
  intros Hnd.
  assert (match tryFormatSlice defaultValue with
          | None => formatSliceValue fieldType defaultValue maxLineLen
          | Some _ => Ok (strings_TrimSpace (litter_Sdump defaultValue))
          end = Err e ↔
          ∃ df tmp err,
            defaultValue = VSlice df
            ∧ Type_Generate fieldType (NewEmitter maxLineLen) = (tmp, Some err)
            ∧ e = ErrCannotDumpDefaultSlice err) as Hrest.
  { destruct (tryFormatSlice defaultValue) eqn:Ht.
    - split; [done|]. intros (df & _ & _ & -> & _). by cbn in Ht.
    - apply tryFormatSlice_None in Ht as [df ->]. unfold formatSliceValue.
      destruct (Type_Generate fieldType (NewEmitter maxLineLen)) as [tmp [err|]].
      + split.
        * intros [= <-]. by exists df, tmp, err.
        * by intros (? & ? & ? & _ & [= _ <-] & ->).
      + split; [by destruct (decide _)|]. by intros (? & ? & ? & _ & [=] & _). }
  unfold formatDefaultValue.
  destruct fieldType; try apply Hrest; [|done].
  destruct defaultValue; try apply Hrest.
  split; [done|]. by intros (? & ? & ? & [=] & _).
Qed.

(** X8. A default that is not a [[]interface{}] and does not enter the
    named-type or the duration branch is dumped as it is: the result is the
    trimmed dump of the value, whatever the field type, and never an
    error. The default is not checked against the field type. *)
Theorem formatDefaultValue_fallback_ignores_type (fieldType : type)
    (defaultValue : value) (maxLineLen : Z) :
  fieldType ≠ DurationType →
  (∀ df, defaultValue ≠ VSlice df) →
  (∀ Decl dvm, fieldType = NamedType Decl → defaultValue ≠ VMap dvm) →
  formatDefaultValue mapRange fieldType defaultValue maxLineLen
    = Ok (strings_TrimSpace (litter_Sdump defaultValue)).
Proof.
  intros Hnd Hns Hnm.
  assert (tryFormatSlice defaultValue ≠ None) as Ht.
  { intros [df ->]%tryFormatSlice_None. by destruct (Hns df). }
  unfold formatDefaultValue.
  destruct fieldType; try done;
    try (by destruct (tryFormatSlice defaultValue)).
  destruct defaultValue; try (by destruct (tryFormatSlice _)).
  by destruct (Hnm Decl m).
Qed.

Lemma bindings_of_keys (dvm : gmap string value) :
  (λ k, (k, mapIndex dvm k)) <$> (map_to_list dvm).*1 = map_to_list dvm.
Proof.
  assert (∀ l : list (string * value),
            (∀ kv, kv ∈ l → dvm !! kv.1 = Some kv.2) →
            (λ k, (k, mapIndex dvm k)) <$> l.*1 = l) as Hl.
  { induction l as [|[k v] l IH]; intros Hin; [done|].
    cbn [fmap list_fmap]. f_equal.
    - unfold mapIndex. rewrite (Hin (k, v)) by left. done.
    - apply IH. intros kv Hkv. apply Hin. by right. }
  apply Hl. intros [k v] Hkv. by apply elem_of_map_to_list.
Qed.

(** X9. The named-type branch, binding by binding: when [range] visits every
    key of the object once, the literal holds one entry for every binding
    of the object, with the dump of the value bound to the key, the entries
    sorted by key. The lookup [dvm[k]] never misses. *)
Theorem named_default_lists_every_binding
    (Decl : typeDecl) (dvm : gmap string value) (maxLineLen : Z) :
  mapRange dvm ≡ₚ (map_to_list dvm).*1 →
  ∃ kvs : list (string * value),
    kvs ≡ₚ map_to_list dvm
    ∧ StronglySorted String.le kvs.*1
    ∧ formatDefaultValue mapRange (NamedType Decl) (VMap dvm) maxLineLen =
        Ok (GetName Decl +:+ "{"
              +:+ gostring.concat (map namedEntry kvs)
              +:+ (if decide (kvs = []) then "" else nl)
              +:+ "}").
Proof.
  intros Hperm.
  exists ((λ k, (k, mapIndex dvm k)) <$> sortedKeys mapRange dvm).
  assert (sortedKeys mapRange dvm ≡ₚ (map_to_list dvm).*1) as Hkeys.
  { unfold sortedKeys. by rewrite merge_sort_Permutation. }
  split_and!.
  - rewrite Hkeys. by rewrite bindings_of_keys.
  - rewrite <- list_fmap_compose.
    replace (fst ∘ (λ k, (k, mapIndex dvm k))) with (@id string) by done.
    rewrite list_fmap_id. apply StronglySorted_merge_sort; apply _.
  - rewrite formatDefaultValue_named.
    assert (map namedEntry ((λ k, (k, mapIndex dvm k)) <$> sortedKeys mapRange dvm)
            = map (namedField dvm) (sortedKeys mapRange dvm)) as ->.
    { clear Hkeys. induction (sortedKeys mapRange dvm) as [|k l IH]; [done|].
      cbn [fmap list_fmap map]. f_equal. exact IH. }
    by destruct (sortedKeys mapRange dvm).
Qed.

(** X10. The literal is [Name{}] exactly for the empty object. *)
Theorem named_default_empty_iff
    (Decl : typeDecl) (dvm : gmap string value) (maxLineLen : Z) :
  mapRange dvm ≡ₚ (map_to_list dvm).*1 →
  formatDefaultValue mapRange (NamedType Decl) (VMap dvm) maxLineLen
    = Ok (GetName Decl +:+ "{}")
  ↔ dvm = ∅.
Proof.
  intros Hperm. rewrite formatDefaultValue_named.
  assert (sortedKeys mapRange dvm = [] ↔ dvm = ∅) as Hnil.
  { unfold sortedKeys. split.
    - intros Hs. apply map_to_list_empty_iff.
      apply (f_equal length) in Hs. rewrite merge_sort_Permutation, Hperm in Hs.
      rewrite length_fmap in Hs. by destruct (map_to_list dvm).
    - intros ->. rewrite map_to_list_empty in Hperm. cbn in Hperm.
      apply Permutation_nil_r in Hperm. by rewrite Hperm. }
  split.
  - intros [= Heq]. apply Hnil.
    apply (inj (String.app _)) in Heq.
    destruct (sortedKeys mapRange dvm) as [|k ks]; [done|].
    cbn [map] in Heq. rewrite concat_cons in Heq.
    unfold namedField at 1, nl in Heq. by rewrite !app_cons in Heq.
  - intros Hd. apply Hnil in Hd. by rewrite Hd.
Qed.

End format_more.

(** ** The duration expression, from text back to duration *)

Lemma digit_cases (d : Z) :
  0 ≤ d < 10 →
  gotime.isDigit (gotime.digit d) = true
  ∧ Z.of_N (N_of_ascii (gotime.digit d)) - 48 = d
  ∧ plain (gotime.digit d) = true
  ∧ gotime.isDot (gotime.digit d) = false.
Proof.
  intros Hd.
  assert (d = 0 ∨ d = 1 ∨ d = 2 ∨ d = 3 ∨ d = 4 ∨ d = 5 ∨ d = 6 ∨ d = 7
          ∨ d = 8 ∨ d = 9) as Hc by lia.
  destruct Hc as [->|[->|[->|[->|[->|[->|[->|[->|[->| ->]]]]]]]]];
    by vm_compute.
Qed.

Lemma mod10_range (v : Z) : 0 ≤ v mod 10 < 10.
Proof. apply Z.mod_pos_bound. lia. Qed.

Lemma leadingInt_fmtInt_loop (f : nat) : ∀ v buf,
  0 ≤ v → v < 10 ^ Z.of_nat f → v ≤ 2 ^ 63 →
  gotime.leadingInt_loop (gotime.fmtInt_loop f v buf) 0
    = gotime.leadingInt_loop buf v.
Proof.
  induction f as [|f IH]; intros v buf H0 Hlt Hmax.
  { cbn [gotime.fmtInt_loop]. replace v with 0 by (cbn in Hlt; lia). done. }
  cbn [gotime.fmtInt_loop]. destruct (0 <? v) eqn:Hv.
  - apply Z.ltb_lt in Hv.
    assert (0 ≤ v / 10) by (apply Z.div_pos; lia).
    assert (v / 10 * 10 + v mod 10 = v) as Hdm
      by (rewrite Z.mul_comm; symmetry; apply Z.div_mod; lia).
    pose proof (mod10_range v) as Hm.
    rewrite IH; [|done| |lia].
    2: { rewrite Nat2Z.inj_succ, Z.pow_succ_r in Hlt by lia.
         apply Z.div_lt_upper_bound; lia. }
    destruct (digit_cases (v mod 10) Hm) as (Hd & Hval & _ & _).
    cbn [gotime.leadingInt_loop]. rewrite Hd, Hval, Hdm.
    assert ((2 ^ 63 / 10 <? v / 10) = false) as ->.
    { apply Z.ltb_ge. apply Z.div_le_mono; lia. }
    assert ((2 ^ 63 <? v) = false) as -> by (apply Z.ltb_ge; lia).
    done.
  - apply Z.ltb_ge in Hv. by replace v with 0 by lia.
Qed.

Lemma leadingInt_loop_stop (buf : string) (v : Z) :
  headDigit buf = false → gotime.leadingInt_loop buf v = Some (v, buf).
Proof. destruct buf as [|c buf]; cbn; [done|]. by intros ->. Qed.

Lemma leadingInt_fmtInt (buf : string) (v : Z) :
  0 ≤ v ≤ 2 ^ 63 → headDigit buf = false →
  gotime.leadingInt (gotime.fmtInt buf v) = Some (v, buf).
Proof.
  intros Hv Hb. unfold gotime.leadingInt, gotime.fmtInt.
  destruct (v =? 0) eqn:H0.
  - apply Z.eqb_eq in H0 as ->. cbn [gotime.leadingInt_loop].
    change (gotime.isDigit "0") with true. cbv iota.
    change (2 ^ 63 / 10 <? 0) with false. cbv iota.
    change (0 * 10 + (Z.of_N (N_of_ascii "0") - 48)) with 0.
    change (2 ^ 63 <? 0) with false. cbv iota.
    by apply leadingInt_loop_stop.
  - rewrite leadingInt_fmtInt_loop; [by apply leadingInt_loop_stop|lia| |lia].
    assert (2 ^ 63 < 10 ^ Z.of_nat 20) by (vm_compute; done). lia.
Qed.

Lemma fmtInt_loop_shape (f : nat) : ∀ v buf,
  0 ≤ v →
  (headDigit buf = true ∨ (0 < v ∧ f ≠ O) →
     headDigit (gotime.fmtInt_loop f v buf) = true)
  ∧ (String.length buf ≤ String.length (gotime.fmtInt_loop f v buf))%nat
  ∧ (allPlain buf = true → allPlain (gotime.fmtInt_loop f v buf) = true).
Proof.
  induction f as [|f IH]; intros v buf H0.
  { cbn [gotime.fmtInt_loop]. split_and!; [|done|done].
    intros [?|[_ ?]]; done. }
  cbn [gotime.fmtInt_loop]. destruct (0 <? v) eqn:Hv.
  - assert (0 ≤ v / 10) as H10 by (apply Z.div_pos; lia).
    destruct (digit_cases (v mod 10) (mod10_range v)) as (Hd & _ & Hp & _).
    destruct (IH (v / 10) (String (gotime.digit (v mod 10)) buf) H10)
      as (Hhead & Hlen & Hplain).
    split_and!.
    + intros _. apply Hhead. by left.
    + cbn [String.length] in Hlen. lia.
    + intros Hb. apply Hplain. cbn [allPlain]. by rewrite Hp, Hb.
  - apply Z.ltb_ge in Hv. split_and!; [|done|done].
    intros [?|[? _]]; [done|lia].
Qed.

Lemma fmtInt_shape (buf : string) (v : Z) :
  0 ≤ v →
  headDigit (gotime.fmtInt buf v) = true
  ∧ (String.length buf < String.length (gotime.fmtInt buf v))%nat
  ∧ (allPlain buf = true → allPlain (gotime.fmtInt buf v) = true).
Proof.
  intros H0. unfold gotime.fmtInt. destruct (v =? 0) eqn:Hv.
  { split_and!; [done|cbn; lia|]. intros Hb. cbn [allPlain]. by rewrite Hb. }
  apply Z.eqb_neq in Hv.
  change (gotime.fmtInt_loop 20 v buf)
    with (if 0 <? v
          then gotime.fmtInt_loop 19 (v / 10) (String (gotime.digit (v mod 10)) buf)
          else buf).
  assert ((0 <? v) = true) as -> by (apply Z.ltb_lt; lia).
  assert (0 ≤ v / 10) as H10 by (apply Z.div_pos; lia).
  destruct (digit_cases (v mod 10) (mod10_range v)) as (Hd & _ & Hp & _).
  destruct (fmtInt_loop_shape 19 (v / 10) (String (gotime.digit (v mod 10)) buf) H10)
    as (Hhead & Hlen & Hplain).
  split_and!.
  - apply Hhead. by left.
  - cbn [String.length] in Hlen. lia.
  - intros Hb. apply Hplain. cbn [allPlain]. by rewrite Hp, Hb.
Qed.

Lemma fmtFrac_loop_multiple (p : nat) : ∀ k buf,
  gotime.fmtFrac_loop p (k * 10 ^ Z.of_nat p) false buf = (buf, k, false).
Proof.
  induction p as [|p IH]; intros k buf.
  { cbn [gotime.fmtFrac_loop]. by rewrite Z.mul_1_r. }
  cbn [gotime.fmtFrac_loop].
  rewrite Nat2Z.inj_succ, Z.pow_succ_r by lia.
  replace (k * (10 * 10 ^ Z.of_nat p)) with ((k * 10 ^ Z.of_nat p) * 10) by lia.
  rewrite Z.mod_mul, Z.div_mul by lia. cbn [Z.eqb negb orb]. apply IH.
Qed.

Lemma Second_pow : gotime.Second = 10 ^ Z.of_nat 9.
Proof. reflexivity. Qed.

Lemma Duration_String_seconds (secs : Z) :
  secs ≠ 0 →
  gotime.Duration_String (secs * gotime.Second) =
    if secs <? 0 then String "-" (secondsText (Z.abs secs))
    else secondsText (Z.abs secs).
Proof.
  intros Hs. unfold gotime.Duration_String.
  assert (Z.abs (secs * gotime.Second) = Z.abs secs * 10 ^ Z.of_nat 9) as ->.
  { rewrite Z.abs_mul. by rewrite Second_pow. }
  assert ((Z.abs secs * 10 ^ Z.of_nat 9 <? gotime.Second) = false) as ->.
  { apply Z.ltb_ge. rewrite Second_pow. 
    assert (0 < 10 ^ Z.of_nat 9) by (vm_compute; done). nia. }
  unfold gotime.fmtFrac. rewrite fmtFrac_loop_multiple.
  assert ((secs * gotime.Second <? 0) = (secs <? 0)) as ->.
  { rewrite Second_pow. assert (0 < 10 ^ Z.of_nat 9) by (vm_compute; done).
    destruct (secs <? 0) eqn:Hneg; [apply Z.ltb_lt in Hneg|apply Z.ltb_ge in Hneg];
      [apply Z.ltb_lt|apply Z.ltb_ge]; nia. }
  reflexivity.
Qed.

Lemma digit_not_dot (c : ascii) :
  gotime.isDigit c = true → gotime.isDot c = false.
Proof.
  intros Hc. unfold gotime.isDot. destruct (Ascii.eqb c ".") eqn:He; [|done].
  apply Ascii.eqb_eq in He as ->. by vm_compute in Hc.
Qed.

Lemma spanUnit_stop (rest : string) :
  headDigit rest = true ∨ rest = "" → gotime.spanUnit rest = ("", rest).
Proof.
  intros [Hh| ->]; [|done]. destruct rest as [|c rest]; [done|].
  cbn in Hh |- *. rewrite Hh. by rewrite orb_true_r.
Qed.

Lemma parseSegments_segment (fuel : nat) (uc : ascii) (unit : Z)
    (rest : string) (v d : Z) :
  (0 < fuel)%nat →
  gotime.unitMap (String uc "") = Some unit →
  gotime.isDigit uc = false → gotime.isDot uc = false →
  headDigit rest = true ∨ rest = "" →
  0 ≤ v ≤ 2 ^ 63 → v ≤ 2 ^ 63 / unit → d + v * unit ≤ 2 ^ 63 →
  gotime.parseSegments fuel (gotime.fmtInt (String uc rest) v) d
    = gotime.parseSegments (Nat.pred fuel) rest (d + v * unit).
Proof.
  intros Hfuel Hunit Hnd Hndot Hrest Hv Hvu Hd.
  destruct fuel as [|fuel]; [lia|]. cbn [Nat.pred].
  pose proof (leadingInt_fmtInt (String uc rest) v Hv) as Hlead.
  destruct (fmtInt_shape (String uc rest) v) as (Hhead & _ & _); [lia|].
  destruct (gotime.fmtInt (String uc rest) v) as [|c t] eqn:Hf; [done|].
  cbn [headDigit] in Hhead. cbn [gotime.parseSegments].
  rewrite (digit_not_dot c Hhead), Hhead. cbn [negb].
  rewrite Hlead by (cbn; done).
  rewrite Hndot. cbn [gotime.spanUnit]. rewrite Hndot, Hnd. cbn [orb].
  rewrite (spanUnit_stop rest Hrest), Hunit.
  assert ((2 ^ 63 / unit <? v) = false) as -> by (apply Z.ltb_ge; lia).
  assert ((2 ^ 63 <? d + v * unit) = false) as -> by (apply Z.ltb_ge; lia).
  done.
Qed.

Lemma parseSegments_nil (fuel : nat) (d : Z) :
  gotime.parseSegments fuel "" d = gotime.Value d.
Proof. by destruct fuel. Qed.

Lemma parse_secondsText (s : Z) (fuel : nat) :
  0 < s ≤ 9223372036 → (String.length (secondsText s) ≤ 2 * fuel)%nat →
  gotime.parseSegments fuel (secondsText s) 0 = gotime.Value (s * gotime.Second).
Proof.
  intros Hs Hfuel. unfold secondsText in *.
  assert (gotime.Second = 1000000000) as HS by reflexivity.
  assert (gotime.Minute = 60000000000) as HM by reflexivity.
  assert (gotime.Hour = 3600000000000) as HH by reflexivity.
  assert (2 ^ 63 = 9223372036854775808) as H63 by reflexivity.
  assert (2 ^ 63 / gotime.Second = 9223372036) as HdS by reflexivity.
  assert (2 ^ 63 / gotime.Minute = 153722867) as HdM by reflexivity.
  assert (2 ^ 63 / gotime.Hour = 2562047) as HdH by reflexivity.
  assert (gotime.unitMap "h" = Some gotime.Hour) as Uh by reflexivity.
  assert (gotime.unitMap "m" = Some gotime.Minute) as Um by reflexivity.
  assert (gotime.unitMap "s" = Some gotime.Second) as Us by reflexivity.
  pose proof (Z.div_mod s 60 ltac:(lia)) as Es.
  pose proof (Z.mod_pos_bound s 60 ltac:(lia)) as Bs.
  pose proof (Z.div_mod (s / 60) 60 ltac:(lia)) as Eu.
  pose proof (Z.mod_pos_bound (s / 60) 60 ltac:(lia)) as Bu.
  assert (0 ≤ s / 60) as Hu0 by (apply Z.div_pos; lia).
  assert (0 ≤ s / 60 / 60) as Hh0 by (apply Z.div_pos; lia).
  set (S0 := s mod 60) in *. set (u := s / 60) in *.
  set (M := u mod 60) in *. set (h := u / 60) in *.
  destruct (fmtInt_shape "s" S0 ltac:(lia)) as (HheadS & LenS & _).
  destruct (fmtInt_shape (String "m" (gotime.fmtInt "s" S0)) M ltac:(lia))
    as (HheadM & LenM & _).
  destruct (fmtInt_shape
              (String "h" (gotime.fmtInt (String "m" (gotime.fmtInt "s" S0)) M))
              h ltac:(lia)) as (_ & LenH & _).
  cbn [String.length] in LenS, LenM, LenH.
  assert (h ≤ 2562047) as Bh by lia.
  assert (0 ≤ h ≤ 2 ^ 63) as R1 by (rewrite H63; lia).
  assert (0 ≤ M ≤ 2 ^ 63) as R2 by (rewrite H63; lia).
  assert (0 ≤ S0 ≤ 2 ^ 63) as R3 by (rewrite H63; lia).
  assert (h ≤ 2 ^ 63 / gotime.Hour) as Q1 by (rewrite HdH; lia).
  assert (M ≤ 2 ^ 63 / gotime.Minute) as Q2 by (rewrite HdM; lia).
  assert (S0 ≤ 2 ^ 63 / gotime.Second) as Q3 by (rewrite HdS; lia).
  assert (0 + h * gotime.Hour ≤ 2 ^ 63) as D1 by (rewrite HH, H63; lia).
  assert (0 + h * gotime.Hour + M * gotime.Minute ≤ 2 ^ 63) as D2
    by (rewrite HH, HM, H63; lia).
  assert (0 + h * gotime.Hour + M * gotime.Minute + S0 * gotime.Second ≤ 2 ^ 63)
    as D3 by (rewrite HH, HM, HS, H63; lia).
  assert (0 + M * gotime.Minute ≤ 2 ^ 63) as D4 by (rewrite HM, H63; lia).
  assert (0 + M * gotime.Minute + S0 * gotime.Second ≤ 2 ^ 63) as D5
    by (rewrite HM, HS, H63; lia).
  assert (0 + S0 * gotime.Second ≤ 2 ^ 63) as D6 by (rewrite HS, H63; lia).
  destruct (0 <? u) eqn:Hu; [destruct (0 <? h) eqn:Hh|].
  - rewrite (parseSegments_segment fuel "h" gotime.Hour
               (gotime.fmtInt (String "m" (gotime.fmtInt "s" S0)) M) h 0
               ltac:(lia) Uh eq_refl eq_refl (or_introl HheadM) R1 Q1 D1).
    rewrite (parseSegments_segment (Nat.pred fuel) "m" gotime.Minute
               (gotime.fmtInt "s" S0) M _
               ltac:(lia) Um eq_refl eq_refl (or_introl HheadS) R2 Q2 D2).
    rewrite (parseSegments_segment (Nat.pred (Nat.pred fuel)) "s" gotime.Second
               "" S0 _
               ltac:(lia) Us eq_refl eq_refl (or_intror eq_refl) R3 Q3 D3).
    rewrite parseSegments_nil. f_equal. rewrite HH, HM, HS. lia.
  - apply Z.ltb_ge in Hh.
    rewrite (parseSegments_segment fuel "m" gotime.Minute
               (gotime.fmtInt "s" S0) M 0
               ltac:(lia) Um eq_refl eq_refl (or_introl HheadS) R2 Q2 D4).
    rewrite (parseSegments_segment (Nat.pred fuel) "s" gotime.Second "" S0 _
               ltac:(lia) Us eq_refl eq_refl (or_intror eq_refl) R3 Q3 D5).
    rewrite parseSegments_nil. f_equal. rewrite HM, HS. lia.
  - apply Z.ltb_ge in Hu.
    rewrite (parseSegments_segment fuel "s" gotime.Second "" S0 0
               ltac:(lia) Us eq_refl eq_refl (or_intror eq_refl) R3 Q3 D6).
    rewrite parseSegments_nil. f_equal. rewrite HS. lia.
Qed.

Lemma digit_not_sign (c : ascii) :
  gotime.isDigit c = true → Ascii.eqb c "-" = false ∧ Ascii.eqb c "+" = false.
Proof.
  intros Hc. split.
  - destruct (Ascii.eqb c "-") eqn:He; [|done].
    apply Ascii.eqb_eq in He as ->. by vm_compute in Hc.
  - destruct (Ascii.eqb c "+") eqn:He; [|done].
    apply Ascii.eqb_eq in He as ->. by vm_compute in Hc.
Qed.

Lemma secondsText_shape (s : Z) :
  0 < s →
  headDigit (secondsText s) = true
  ∧ (2 ≤ String.length (secondsText s))%nat
  ∧ allPlain (secondsText s) = true.
Proof.
  intros Hs. unfold secondsText.
  pose proof (Z.mod_pos_bound s 60 ltac:(lia)) as Bs.
  pose proof (Z.mod_pos_bound (s / 60) 60 ltac:(lia)) as Bu.
  assert (0 ≤ s / 60 / 60) as Hh0 by (apply Z.div_pos; [apply Z.div_pos|]; lia).
  destruct (fmtInt_shape "s" (s mod 60) ltac:(lia)) as (H1 & L1 & P1).
  destruct (fmtInt_shape (String "m" (gotime.fmtInt "s" (s mod 60)))
              (s / 60 mod 60) ltac:(lia)) as (H2 & L2 & P2).
  destruct (fmtInt_shape
              (String "h" (gotime.fmtInt (String "m" (gotime.fmtInt "s" (s mod 60)))
                             (s / 60 mod 60)))
              (s / 60 / 60) ltac:(lia)) as (H3 & L3 & P3).
  cbn [String.length] in L1, L2, L3.
  specialize (P1 eq_refl).
  assert (allPlain (gotime.fmtInt (String "m" (gotime.fmtInt "s" (s mod 60)))
                      (s / 60 mod 60)) = true) as P2'.
  { apply P2. cbn [allPlain]. by rewrite P1. }
  assert (allPlain (gotime.fmtInt
            (String "h" (gotime.fmtInt (String "m" (gotime.fmtInt "s" (s mod 60)))
                           (s / 60 mod 60))) (s / 60 / 60)) = true) as P3'.
  { apply P3. cbn [allPlain]. by rewrite P2'. }
  destruct (0 <? s / 60); [destruct (0 <? s / 60 / 60)|];
    (split_and!; [done|lia|done]).
Qed.

Lemma ParseDuration_round_trip (secs : Z) :
  -9223372036 ≤ secs ≤ 9223372036 →
  gotime.ParseDuration (gotime.Duration_String (secs * gotime.Second))
    = gotime.Value (secs * gotime.Second).
Proof.
  intros Hr. destruct (decide (secs = 0)) as [->|Hnz]; [reflexivity|].
  rewrite Duration_String_seconds by done.
  assert (0 < Z.abs secs ≤ 9223372036) as Ha by lia.
  destruct (secondsText_shape (Z.abs secs)) as (Hhead & Hlen & _); [lia|].
  pose proof (parse_secondsText (Z.abs secs)
                (String.length (secondsText (Z.abs secs))) Ha ltac:(lia)) as Hp.
  assert (gotime.Second = 1000000000) as HS by reflexivity.
  assert (2 ^ 63 - 1 = 9223372036854775807) as H63 by reflexivity.
  destruct (secondsText (Z.abs secs)) as [|c t] eqn:Htxt; [done|].
  cbn [headDigit] in Hhead.
  destruct (digit_not_sign c Hhead) as [Hm Hp'].
  assert (String.eqb (String c t) "0" = false) as H0.
  { apply String.eqb_neq. intros [= -> ->]. cbn in Hlen. lia. }
  unfold gotime.ParseDuration.
  destruct (secs <? 0) eqn:Hneg.
  - apply Z.ltb_lt in Hneg.
    change (Ascii.eqb "-" "-") with true. cbv iota.
    rewrite H0. change (String.eqb (String c t) "") with false. cbv iota.
    rewrite Hp. f_equal. lia.
  - apply Z.ltb_ge in Hneg. rewrite Hm, Hp'.
    rewrite H0. change (String.eqb (String c t) "") with false. cbv iota.
    rewrite Hp.
    assert ((2 ^ 63 - 1 <? Z.abs secs * gotime.Second) = false) as ->.
    { apply Z.ltb_ge. rewrite H63, HS. lia. }
    f_equal. lia.
Qed.

Lemma quoteByte_plain (c : ascii) :
  plain c = true → strconv.quoteByte c = String c "".
Proof.
  unfold plain, strconv.quoteByte.
  intros (((Hq & Hb)%andb_prop & H32)%andb_prop & H127)%andb_prop.
  apply negb_true_iff in Hq, Hb, H127. rewrite Hq, Hb.
  apply N.leb_le in H32. apply N.eqb_neq in H127.
  repeat match goal with
  | |- context [(N_of_ascii c =? ?k)%N] =>
      assert ((N_of_ascii c =? k)%N = false) as -> by (apply N.eqb_neq; lia)
  end.
  assert ((N_of_ascii c <? 32)%N = false) as -> by (apply N.ltb_ge; lia).
  done.
Qed.

Lemma unquoteBody_plain (c : ascii) (rest : string) :
  plain c = true →
  goeval.unquoteBody (String c rest) = goeval.consFst c (goeval.unquoteBody rest).
Proof.
  unfold plain.
  intros (((Hq & Hb)%andb_prop & _)%andb_prop & _)%andb_prop.
  apply negb_true_iff in Hq, Hb. cbn [goeval.unquoteBody]. by rewrite Hq, Hb.
Qed.

Lemma unquote_quote (s tail : string) :
  allPlain s = true →
  goeval.unquoteBody (strconv.quoteBody s +:+ String strconv.dq tail)
    = Some (s, tail).
Proof.
  induction s as [|c s IH]; intros Hp.
  - reflexivity.
  - cbn [allPlain] in Hp. apply andb_prop in Hp as [Hc Hs].
    cbn [strconv.quoteBody]. rewrite quoteByte_plain by done.
    rewrite <- app_assoc, app_cons, app_nil_l.
    rewrite unquoteBody_plain by done. by rewrite IH.
Qed.

Lemma stripPrefix_app (p s : string) : goeval.stripPrefix p (p +:+ s) = Some s.
Proof.
  induction p as [|a p IH]; [by destruct s|].
  rewrite app_cons. cbn [goeval.stripPrefix]. by rewrite Ascii.eqb_refl.
Qed.

Lemma evalDurationExpr_durationExpr (lit : string) :
  allPlain lit = true →
  goeval.evalDurationExpr (durationExpr lit) =
    match gotime.ParseDuration lit with
    | gotime.Value d => Some d
    | gotime.Invalid => Some 0
    | gotime.Fraction => None
    end.
Proof.
  intros Hp. unfold goeval.evalDurationExpr, durationExpr.
  rewrite stripPrefix_app. cbn [mbind option_bind].
  unfold strconv.Quote. rewrite app_cons, <- app_assoc, app_cons, app_nil_l.
  rewrite Ascii.eqb_refl, unquote_quote by done.
  cbn [mbind option_bind]. by rewrite String.eqb_refl.
Qed.

Lemma allPlain_Duration_String_seconds (secs : Z) :
  allPlain (gotime.Duration_String (secs * gotime.Second)) = true.
Proof.
  destruct (decide (secs = 0)) as [->|Hnz]; [reflexivity|].
  rewrite Duration_String_seconds by done.
  destruct (secondsText_shape (Z.abs secs)) as (_ & _ & Hp); [lia|].
  destruct (secs <? 0); [|done]. cbn [allPlain]. by rewrite Hp.
Qed.

Section duration_round_trip.

Context {DL : DurationLib} {E : Externals}.
Variable mapRange : gmap string value → list string.

(** X11. A duration default that the ISO 8601 package reads as a whole number
    of seconds within the range of int64 formats to an expression that
    evaluates, when the constructor runs, to exactly the duration parsed at
    generation time: the text of [time.Duration.String] is quoted, read back
    and parsed by [time.ParseDuration] without loss. *)
Theorem duration_expression_round_trip (iso : string) (d : Duration)
    (secs maxLineLen : Z) :
  iso ≠ "" →
  duration_Parse iso = Some d →
  ToTimeDuration d = secs * gotime.Second →
  -9223372036 ≤ secs ≤ 9223372036 →
  ∃ expr,
    formatDefaultValue mapRange DurationType (VString iso) maxLineLen = Ok expr
    ∧ goeval.evalDurationExpr expr = Some (ToTimeDuration d).
Proof.
  intros Hne Hparse Hd Hr. eexists. split.
  - rewrite formatDefaultValue_duration, decide_False, Hparse by done. reflexivity.
  - rewrite Hd, evalDurationExpr_durationExpr
      by apply allPlain_Duration_String_seconds.
    by rewrite ParseDuration_round_trip.
Qed.
End duration_round_trip.

(** ** The further properties on examples *)

Section more_examples.

#[local] Existing Instance reference.externals.

Lemma generate_success_state_witness :
  start (NewEmitter 80) = true
  ∧ example.run example.config = ((example.run example.config).1, None)
  ∧ (example.run example.config).1 =
      mkEmitter ("" +:+ constructorText reference.mapRange "Config"
                          example.config_fields 0 80)
                80 true 0.
Proof.
  assert (example.run example.config = ((example.run example.config).1, None))
    as H by (vm_compute; reflexivity).
  split_and!; [reflexivity | exact H |].
  exact (generate_success_state reference.mapRange "Config" example.config_fields
           (NewEmitter 80) _ eq_refl H).
Defined.

Lemma generate_twice_witness :
  start (NewEmitter 80) = true
  ∧ example.run example.config = ((example.run example.config).1, None)
  ∧ generate reference.mapRange example.open_map (example.run example.config).1
      = ((generate reference.mapRange example.open_map
            (example.run example.config).1).1, None)
  ∧ Emitter_String (generate reference.mapRange example.open_map
                      (example.run example.config).1).1 =
      "" +:+ constructorText reference.mapRange "Config" example.config_fields 0 80
         +:+ constructorText reference.mapRange "Options" example.open_map_fields 0 80.
Proof.
  assert (example.run example.config = ((example.run example.config).1, None))
    as H1 by (vm_compute; reflexivity).
  assert (generate reference.mapRange example.open_map (example.run example.config).1
          = ((generate reference.mapRange example.open_map
                (example.run example.config).1).1, None))
    as H2 by (vm_compute; reflexivity).
  split_and!; [reflexivity | exact H1 | exact H2 |].
  exact (proj1 (generate_twice reference.mapRange "Config" "Options"
                  example.config_fields example.open_map_fields
                  (NewEmitter 80) _ _ eq_refl H1 H2)).
Defined.

Lemma generate_stops_at_first_failure_witness :
  Forall (λ g, formats reference.mapRange 80 g = true)
         (List.filter initialized
            [StructField "Name" (PrimitiveType "string") (VString "x")])
  ∧ VString "30 seconds" ≠ VNil
  ∧ "Timeout" ≠ reference.additionalProperties
  ∧ formatDefaultValue reference.mapRange DurationType (VString "30 seconds") 80
      = Err ErrCannotConvertISO8601ToGoFormat
  ∧ ∃ out',
      example.run example.bad_timeout
        = (out', Some (ErrCannotFormatField "Timeout"
                         ErrCannotConvertISO8601ToGoFormat))
      ∧ indent out' = 2.
Proof.
  assert (Forall (λ g, formats reference.mapRange 80 g = true)
            (List.filter initialized
               [StructField "Name" (PrimitiveType "string") (VString "x")]))
    as H1 by (repeat constructor).
  assert (VString "30 seconds" ≠ VNil) as H2 by discriminate.
  assert ("Timeout" ≠ reference.additionalProperties) as H3 by discriminate.
  assert (formatDefaultValue reference.mapRange DurationType
            (VString "30 seconds") 80 = Err ErrCannotConvertISO8601ToGoFormat)
    as H4 by (vm_compute; reflexivity).
  split_and!; [exact H1 | exact H2 | exact H3 | exact H4 |].
  destruct (generate_stops_at_first_failure reference.mapRange "Server"
              [StructField "Name" (PrimitiveType "string") (VString "x")] []
              (StructField "Timeout" DurationType (VString "30 seconds"))
              ErrCannotConvertISO8601ToGoFormat (NewEmitter 80) H1 H2 H3 H4)
    as (out' & Hgen & _ & Hind & _).
  exists out'. split; [exact Hgen | exact Hind].
Defined.

Lemma generate_without_defaults_witness :
  List.filter initialized example.open_map_fields = []
  ∧ hasDefaults example.open_map = true
  ∧ example.run example.open_map
      = (closeConstructor (openConstructor "Options" (NewEmitter 80)), None).
Proof.
  assert (List.filter initialized example.open_map_fields = []) as H
    by reflexivity.
  split_and!; [exact H | reflexivity |].
  exact (proj1 (proj2 (generate_without_defaults reference.mapRange "Options"
                         example.open_map_fields (NewEmitter 80)) H)).
Defined.

Lemma formatDefaultValue_fails_only_on_rendering_witness :
  ArrayType (PrimitiveType "string") ≠ DurationType
  ∧ formatDefaultValue (E := broken_externals) reference.mapRange
      (ArrayType (PrimitiveType "string")) (VSlice [VString "a"]) 80
      = Err (ErrCannotDumpDefaultSlice (ErrForeign "cannot render")).
Proof.
  assert (ArrayType (PrimitiveType "string") ≠ DurationType) as H by discriminate.
  split; [exact H|].
  apply (proj2 (formatDefaultValue_fails_only_on_rendering (E := broken_externals)
                  reference.mapRange (ArrayType (PrimitiveType "string"))
                  (VSlice [VString "a"]) 80
                  (ErrCannotDumpDefaultSlice (ErrForeign "cannot render")) H)).
  exists [VString "a"], (NewEmitter 80), (ErrForeign "cannot render").
  split_and!; reflexivity.
Defined.

Lemma formatDefaultValue_fallback_witness :
  PrimitiveType "int" ≠ DurationType
  ∧ (∀ df, VString "ten" ≠ VSlice df)
  ∧ (∀ Decl dvm, PrimitiveType "int" = NamedType Decl → VString "ten" ≠ VMap dvm)
  ∧ formatDefaultValue reference.mapRange (PrimitiveType "int") (VString "ten") 80
      = Ok (strconv.Quote "ten").
Proof.
  assert (PrimitiveType "int" ≠ DurationType) as H1 by discriminate.
  assert (∀ df, VString "ten" ≠ VSlice df) as H2 by (intros df; discriminate).
  assert (∀ Decl dvm, PrimitiveType "int" = NamedType Decl → VString "ten" ≠ VMap dvm)
    as H3 by (intros Decl dvm _; discriminate).
  split_and!; [exact H1 | exact H2 | exact H3 |].
  exact (formatDefaultValue_fallback_ignores_type reference.mapRange
           (PrimitiveType "int") (VString "ten") 80 H1 H2 H3).
Defined.

Lemma named_default_lists_every_binding_witness :
  reference.mapRange (<["port" := VInt 80]> (<["host" := VString "y"]> ∅))
    ≡ₚ (map_to_list (<["port" := VInt 80]> (<["host" := VString "y"]> ∅))).*1
  ∧ ∃ kvs : list (string * value),
      kvs ≡ₚ map_to_list (<["port" := VInt 80]> (<["host" := VString "y"]> ∅))
      ∧ StronglySorted String.le kvs.*1
      ∧ formatDefaultValue reference.mapRange (NamedType example.inner)
          (VMap (<["port" := VInt 80]> (<["host" := VString "y"]> ∅))) 80
        = Ok ("Inner" +:+ "{" +:+ gostring.concat (map namedEntry kvs)
                +:+ (if decide (kvs = []) then "" else nl) +:+ "}").
Proof.
  assert (reference.mapRange (<["port" := VInt 80]> (<["host" := VString "y"]> ∅))
          ≡ₚ (map_to_list (<["port" := VInt 80]> (<["host" := VString "y"]> ∅))).*1)
    as H by reflexivity.
  split; [exact H|].
  exact (named_default_lists_every_binding reference.mapRange example.inner
           (<["port" := VInt 80]> (<["host" := VString "y"]> ∅)) 80 H).
Defined.

Lemma named_default_empty_witness :
  reference.mapRange ∅ ≡ₚ (map_to_list (∅ : gmap string value)).*1
  ∧ formatDefaultValue reference.mapRange (NamedType example.inner) (VMap ∅) 80
      = Ok ("Inner" +:+ "{}").
Proof.
  assert (reference.mapRange ∅ ≡ₚ (map_to_list (∅ : gmap string value)).*1)
    as H by reflexivity.
  split; [exact H|].
  exact (proj2 (named_default_empty_iff reference.mapRange example.inner ∅ 80 H)
           eq_refl).
Defined.

Lemma duration_expression_round_trip_witness :
  "PT1H30M" ≠ ""
  ∧ duration_Parse "PT1H30M" = Some ninety_minutes
  ∧ ToTimeDuration ninety_minutes = 5400 * gotime.Second
  ∧ -9223372036 ≤ 5400 ≤ 9223372036
  ∧ ∃ expr,
      formatDefaultValue reference.mapRange DurationType (VString "PT1H30M") 80
        = Ok expr
      ∧ goeval.evalDurationExpr expr = Some (ToTimeDuration ninety_minutes).
Proof.
  assert ("PT1H30M" ≠ "") as H1 by discriminate.
  assert (duration_Parse "PT1H30M" = Some ninety_minutes) as H2
    by (vm_compute; reflexivity).
  assert (ToTimeDuration ninety_minutes = 5400 * gotime.Second) as H3
    by (vm_compute; reflexivity).
  assert (-9223372036 ≤ 5400 ≤ 9223372036) as H4 by lia.
  refine (conj H1 (conj H2 (conj H3 (conj H4 _)))).
  exact (duration_expression_round_trip reference.mapRange "PT1H30M"
           ninety_minutes 5400 80 H1 H2 H3 H4).
Defined.

(** The expression for ["PT1H30M"] and its value. *)
Example ninety_minutes_expression :
  formatDefaultValue reference.mapRange DurationType (VString "PT1H30M") 80
    = Ok (durationExpr "1h30m0s")
  ∧ goeval.evalDurationExpr (durationExpr "1h30m0s") = Some (90 * gotime.Minute).
Proof. split; vm_compute; reflexivity. Qed.

End more_examples.
